(** * Evacuation-Analysis: survey aggregation scripts, shallow embedding

    The repository consists of pandas scripts:
    - [genetedatefilterprocess.py]: global prefix breakdowns, optional start-date
      filter and a breakdown conditioned on a session's answer;
    - [geneteprocess.py]: per-user prefix breakdown;
    - [processEvacuate.py] and [firstworkingprocessEvacuate.py]: latest player
      type and evacuation choice per user, inner-joined on [user_id].

    A DataFrame is a list of row records plus its list of column names.  A
    missing cell (NaN / NaT) is [None].  Timestamps are [datetime64[ns]]
    values: nanoseconds since 1970-01-01T00:00:00 (UTC for a tz-aware
    column).  Percentages are computed exactly in [Q]; the scripts compute
    them in floating point. *)

From Stdlib Require Import List String Ascii ZArith QArith Qfield Lia
  Permutation Sorted Bool.
Import ListNotations.

(* ------------------------------------------------------------------------- *)
(** ** Generic pandas operations *)

Module Pandas.

(** Insertion into a list: [x] is placed in front of the first element [y]
    with [before x y = true]. *)
Fixpoint insert {A} (before : A -> A -> bool) (x : A) (l : list A) : list A :=
  match l with
  | [] => [x]
  | y :: t => if before x y then x :: y :: t else y :: insert before x t
  end.

(** Insertion sort.  With a non-strict [before] (ties go in front) it is
    stable; it is used where pandas' own tie order does not matter. *)
Definition isort {A} (before : A -> A -> bool) (l : list A) : list A :=
  fold_right (insert before) [] l.

(** Sum of the counts of a [(key, count)] table. *)
Definition sum_vals {K} (l : list (K * nat)) : nat :=
  fold_right (fun kv s => (snd kv + s)%nat) 0%nat l.

(** Sum of a list of rationals. *)
Definition sumQ (l : list Q) : Q := fold_right Qplus 0%Q l.

(** [count / total * 100]. *)
Definition pct (count total : nat) : Q :=
  (inject_Z (Z.of_nat count) / inject_Z (Z.of_nat total)) * 100.

(** Spec side of the time window: [created_at] in the inclusive interval
    [[start, end]], either bound optional. *)
Definition in_window (start_ts end_ts : option Z) (t : Z) : bool :=
  match start_ts with Some s => Z.leb s t | None => true end &&
  match end_ts with Some e => Z.leb t e | None => true end.

Section GroupSum.
Context {K : Type} (keq : K -> K -> bool).

(** Add [v] to the entry of key [k], or append a new entry. *)
Fixpoint add_to (acc : list (K * nat)) (k : K) (v : nat) : list (K * nat) :=
  match acc with
  | [] => [(k, v)]
  | (k', s) :: t =>
      if keq k' k then (k', (s + v)%nat) :: t else (k', s) :: add_to t k v
  end.

(** [groupby(key).sum()] (keys in first-occurrence order; callers that
    need pandas' sorted keys sort afterwards). *)
Definition group_sum (l : list (K * nat)) : list (K * nat) :=
  fold_left (fun acc kv => add_to acc (fst kv) (snd kv)) l [].
End GroupSum.

End Pandas.

(* ------------------------------------------------------------------------- *)
(** ** numpy's [argsort(kind='quicksort')]

    [aquicksort_] of numpy/_core/src/npysort/quicksort.cpp (introsort:
    median-of-three quicksort, insertion sort on ranges of at most
    [SMALL_QUICKSORT + 1] elements, [aheapsort_] of heapsort.cpp when the
    depth limit [2 * npy_get_msb(num)] is exhausted), instantiated at the
    [datetime_tag] of [datetime64] values without NaT, whose [less] is [<]. *)

Module Numpy.
Local Open Scope Z_scope.
Local Open Scope bool_scope.

(** The index array [tosort] is a list of indices into the values [v];
    C's pointer positions are list positions.  Each loop carries a fuel
    bound at least its trip count (a scan or shift moves at most the length
    of the array; each partition step pushes one range). *)



Definition set (a : list nat) (i x : nat) : list nat :=
  firstn i a ++ x :: skipn (S i) a.














End Numpy.

(* ------------------------------------------------------------------------- *)
(** ** genetedatefilterprocess.py and geneteprocess.py *)

Module Breakdown.
Import Pandas.

(** A row of the survey export read by [pd.read_csv(sys.stdin)]; [None] is a
    NaN cell.  [created_at] is the result of
    [pd.to_datetime(..., errors='coerce')]: [None] is NaT. *)
Record Row := mkRow {
  hashed_user_id : option string;
  session_id : option string;
  question : option string;
  answer : option string;
  created_at : option Z
}.

(** A DataFrame: its column labels, its rows, and the time zone of the
    dtype [pd.to_datetime(df['created_at'], errors='coerce')] gives the
    column ([None]: tz-naive [datetime64[ns]], as for text without an
    offset; [Some "UTC"] for text ending in "Z"). *)
Record Table := mkTable {
  columns : list string;
  rows : list Row;
  created_at_tz : option string
}.

(** What a script writes.  Each [sys.stdout.write] is one item; the text of a
    [Line] omits the final newline (the bare ["\n"] write is [Line ""]). *)
Inductive Out :=
| Line (s : string)
| Csv_answer_pct (t : list (string * Q))
| Csv_user_answer_pct (t : list (string * string * Q))
| Pct_2009 (q : Q).

Record Run := mkRun { stdout : list Out; stderr : list string; exit_code : Z }.

(** [Series.astype(str)] of a cell: NaN becomes the text "nan". *)
Definition astype_str (v : option string) : string :=
  match v with Some s => s | None => "nan" end.

(** [.astype(str).str.startswith(prefix, na=False)] *)
Definition startswith (prefix : string) (v : option string) : bool :=
  String.prefix prefix (astype_str v).

(** [df[df['question'].astype(str).str.startswith(prefix, na=False)]] *)
Definition filter_questions (df : list Row) (prefix : string) : list Row :=
  filter (fun r => startswith prefix (question r)) df.

(** The non-NaN values of a column. *)
Definition dropna (l : list (option string)) : list string :=
  flat_map (fun o => match o with Some s => [s] | None => [] end) l.

(** [Series.value_counts()]: NaN dropped (dropna=True), counts in
    descending order. *)
Definition value_counts (l : list (option string)) : list (string * nat) :=
  isort (fun x y => Nat.leb (snd y) (snd x))
    (group_sum String.eqb (map (fun a => (a, 1%nat)) (dropna l))).

(** genetedatefilterprocess.calculate_aggregated_answer_percentages *)
Definition calculate_aggregated_answer_percentages (df_input : list Row)
    (question_prefix : string) : list (string * Q) :=
  let filtered_questions_df := filter_questions df_input question_prefix in
  match filtered_questions_df with
  | [] => []
  | _ :: _ =>
      let answer_counts := value_counts (map answer filtered_questions_df) in
      let total_answers := sum_vals answer_counts in
      if Nat.eqb total_answers 0 then []
      else
        let with_percentage :=
          map (fun ac => (fst ac, pct (snd ac) total_answers)) answer_counts in
        isort (fun x y => Qle_bool (snd y) (snd x)) with_percentage
  end.

(** The entries of [required] that are not column labels. *)
Definition missing_columns (cols required : list string) : list string :=
  filter (fun c => negb (existsb (String.eqb c) cols)) required.

Definition empty_data_error : string :=
  "Error: No data to parse. The input CSV might be empty.".

(** [df.dropna(subset=['created_at'])] *)
Definition drop_nat (df : list Row) : list Row :=
  filter (fun r => match created_at r with Some _ => true | None => false end) df.

(** [df['created_at'] >= start_datetime] *)
Definition on_or_after (start_datetime : Z) (r : Row) : bool :=
  match created_at r with Some c => Z.leb start_datetime c | None => false end.

(** Equality of cells as [==] / [isin] / [unique] see it for [session_id]:
    [unique] keeps one NaN and [isin] matches NaN with NaN. *)
Definition opt_eqb (x y : option string) : bool :=
  match x, y with
  | Some a, Some b => String.eqb a b
  | None, None => true
  | _, _ => false
  end.

(** [Series.unique()]: first occurrences, in order. *)
Fixpoint unique_from (seen : list (option string)) (l : list (option string))
    : list (option string) :=
  match l with
  | [] => []
  | x :: t =>
      if existsb (opt_eqb x) seen then unique_from seen t
      else x :: unique_from (x :: seen) t
  end.

Definition unique (l : list (option string)) : list (option string) :=
  unique_from [] l.

(** [Series.isin(values)] *)
Definition isin (v : option string) (values : list (option string)) : bool :=
  existsb (opt_eqb v) values.

(** The text of an answer cell is "2009". *)
Definition answer_text_is_2009 (r : Row) : bool :=
  match answer r with Some a => String.eqb a "2009" | None => false end.

(** The dtype [pd.read_csv] infers for the answer column: numeric (int64,
    or float64 when there is a NaN) when every non-NaN cell is a number
    for [is_number]; an all-NaN column is float64 as well.  Otherwise the
    column holds the cells' text (object dtype). *)
Definition answer_numeric (is_number : string -> bool) (df : list Row) : bool :=
  forallb (fun r => match answer r with Some a => is_number a | None => true end) df.

(** [df['answer'] == "2009"]: NaN compares unequal, and no value of a
    numeric column equals a string. *)
Definition answer_is_2009 (numeric : bool) (r : Row) : bool :=
  negb numeric && answer_text_is_2009 r.

(** A sufficient test for [is_number]: a non-empty string of ASCII digits,
    which [read_csv] reads as an integer. *)
Definition decimal_number (s : string) : bool :=
  negb (String.eqb s "") &&
  forallb (fun c => Ascii.leb "0"%char c && Ascii.leb c "9"%char) (list_ascii_of_string s).

(** First output of process_and_output_percentages. *)
Definition first_output (df : list Row) : list Out :=
  Line "--- Overall Percentage of Answers for Questions Starting with 'Now,' (All Data) ---" ::
  (match calculate_aggregated_answer_percentages df "Now," with
   | [] => [Line "No questions starting with 'Now,' found in the full dataset (after date filter if applied)."]
   | p => [Csv_answer_pct p]
   end) ++ [Line ""].

(** Second output of process_and_output_percentages; [numeric] is the
    dtype of the answer column. *)
Definition second_output (numeric : bool) (df : list Row) : list Out :=
  Line "--- Overall Percentage of '2009' Answers for Questions Starting with 'First' ---" ::
  (match filter_questions df "First" with
   | [] => [Line "No questions starting with 'First' found in the dataset (after date filter if applied)."]
   | first_questions_overall_df =>
       let total_first_questions_answered := List.length first_questions_overall_df in
       let answers_2009_count :=
         List.length (filter (answer_is_2009 numeric) first_questions_overall_df) in
       if Nat.ltb 0 total_first_questions_answered
       then [Pct_2009 (pct answers_2009_count total_first_questions_answered)]
       else [Line "No answers found for questions starting with 'First'."]
   end) ++ [Line ""].

(** Step 1 of the third output: session ids with a 'First' question answered
    "2009". *)
Definition sessions_with_2009_answer (numeric : bool) (df : list Row)
    : list (option string) :=
  unique (map session_id (filter (answer_is_2009 numeric) (filter_questions df "First"))).

(** Third output of process_and_output_percentages: the conditional
    breakdown. *)
Definition third_output (numeric : bool) (df : list Row) : list Out :=
  Line "--- Overall Percentage of Answers for Questions Starting with 'Now,' (Filtered by 'First' = '2009') ---" ::
  (match sessions_with_2009_answer numeric df with
   | [] =>
       [Line "No sessions found where answer to a 'First' question was '2009'.";
        Line "Therefore, no filtered percentages for 'Now,' questions can be calculated."]
   | sessions =>
       let filtered_df := filter (fun r => isin (session_id r) sessions) df in
       match calculate_aggregated_answer_percentages filtered_df "Now," with
       | [] => [Line "No questions starting with 'Now,' found in the filtered dataset (after date filter if applied)."]
       | p => [Csv_answer_pct p]
       end
   end) ++ [Line ""].

(** Rows whose [answer] cell is not NaN. *)
Definition has_answer (r : Row) : bool :=
  match answer r with Some _ => true | None => false end.

Definition answered_rows (df : list Row) : list Row := filter has_answer df.

(** Number of rows answering [a]. *)
Definition count_answer (a : string) (df : list Row) : nat :=
  List.length (filter (fun r => opt_eqb (answer r) (Some a)) df).

(** Number of rows of user [u] answering [a]. *)
Definition count_user_answer (u a : string) (df : list Row) : nat :=
  List.length (filter (fun r => opt_eqb (hashed_user_id r) (Some u) &&
                                opt_eqb (answer r) (Some a)) df).

(** Number of rows of user [u] with a non-missing answer. *)
Definition count_user_answered (u : string) (df : list Row) : nat :=
  List.length (filter (fun r => opt_eqb (hashed_user_id r) (Some u) &&
                                has_answer r) df).


Definition required_cols : list string :=
  ["hashed_user_id"; "question"; "answer"; "session_id"; "created_at"]%string.

(** The tz-awareness of a [datetime64] dtype or of a [Timestamp]. *)
Definition tz_aware (tz : option string) : bool :=
  match tz with Some _ => true | None => false end.

(** The printed name of the dtype of the parsed [created_at] column. *)
Definition dtype_name (tz : option string) : string :=
  match tz with
  | None => "datetime64[ns]"
  | Some z => "datetime64[ns, " ++ z ++ "]"
  end.

Section DateFilter.
(** [pd.to_datetime] of the [--start-date] text: its value and its time
    zone ([None]: a tz-naive [Timestamp]); [None] when it raises
    ValueError. *)
Variable to_datetime : string -> option (Z * option string).
(** [read_csv]'s test that a cell is a number. *)
Variable is_number : string -> bool.

(** The [if start_date:] block: [inl] is an early end of the run.  The
    comparison [df['created_at'] >= start_datetime] of a tz-aware column
    with a tz-naive [Timestamp], or the other way round, raises TypeError;
    the inner handler catches only ValueError, so the outer [except
    Exception] reports it. *)
Definition apply_start_date (col_tz : option string) (start_date : option string)
    (df : list Row) : Run + list Row :=
  match start_date with
  | None => inr df
  | Some s =>
      if String.eqb s "" then inr df
      else match to_datetime s with
           | None =>
               inl (mkRun [] [("Error: Invalid start date format: '" ++ s ++
                              "'. Please use YYYY-MM-DD format.")%string] 1)
           | Some (start_datetime, start_tz) =>
               if negb (Bool.eqb (tz_aware col_tz) (tz_aware start_tz))
               then inl (mkRun [] [("An unexpected error occurred: Invalid comparison between dtype=" ++
                                    dtype_name col_tz ++ " and Timestamp")%string] 1)
               else
               match filter (on_or_after start_datetime) df with
               | [] => inl (mkRun [Line ("No data found on or after " ++ s ++
                                         " after filtering.")%string] [] 0)
               | df' => inr df'
               end
           end
  end.

(** genetedatefilterprocess.process_and_output_percentages; [input] is
    [None] when [pd.read_csv] raises EmptyDataError (no columns at all).
    The dtype of the answer column is inferred from the whole file. *)
Definition process_and_output_percentages (input : option Table)
    (start_date : option string) : Run :=
  match input with
  | None => mkRun [] [empty_data_error] 1
  | Some t =>
      match missing_columns (columns t) required_cols with
      | (_ :: _) as missing =>
          mkRun [] [("Error: Missing expected columns: " ++
                    String.concat ", " missing ++
                    ". Please ensure 'hashed_user_id', 'question', 'answer', 'session_id', and 'created_at' columns exist.")%string] 1
      | [] =>
          let numeric := answer_numeric is_number (rows t) in
          match apply_start_date (created_at_tz t) start_date (drop_nat (rows t)) with
          | inl run => run
          | inr df =>
              mkRun (first_output df ++ second_output numeric df ++
                     third_output numeric df) [] 0
          end
      end
  end.
End DateFilter.

(** geneteprocess: the [(hashed_user_id, answer)] keys of
    [groupby(['hashed_user_id', 'answer'])]; rows with a NaN key are dropped
    (dropna=True). *)
Definition groupby_user_answer (df : list Row) : list (string * string) :=
  flat_map (fun r => match hashed_user_id r, answer r with
                     | Some u, Some a => [(u, a)]
                     | _, _ => []
                     end) df.

Definition pair_eqb (x y : string * string) : bool :=
  String.eqb (fst x) (fst y) && String.eqb (snd x) (snd y).

(** Lexicographic order of group keys (groupby sorts them). *)
Definition pair_leb (x y : string * string) : bool :=
  String.ltb (fst x) (fst y) ||
  (String.eqb (fst x) (fst y) && String.leb (snd x) (snd y)).

(** geneteprocess line 31: [answer_counts =
    filtered_questions_df.groupby(['hashed_user_id', 'answer']).size()]. *)
Definition user_answer_counts (filtered_questions_df : list Row)
    : list (string * string * nat) :=
  isort (fun x y => pair_leb (fst x) (fst y))
    (group_sum pair_eqb
       (map (fun k => (k, 1%nat)) (groupby_user_answer filtered_questions_df))).

(** geneteprocess line 35: [total_answers_per_user =
    answer_counts.groupby('hashed_user_id')['count'].sum()]. *)
Definition total_answers_per_user (answer_counts : list (string * string * nat))
    : list (string * nat) :=
  isort (fun x y => String.leb (fst x) (fst y))
    (group_sum String.eqb
       (map (fun kc => (fst (fst kc), snd kc)) answer_counts)).

(** geneteprocess line 38: [pd.merge(answer_counts, total_answers_per_user,
    on='hashed_user_id')] (inner, in the order of the left keys). *)
Definition merge_totals (answer_counts : list (string * string * nat))
    (totals : list (string * nat)) : list (string * string * nat * nat) :=
  flat_map (fun kc =>
              map (fun ut => (fst (fst kc), snd (fst kc), snd kc, snd ut))
                (filter (fun ut => String.eqb (fst ut) (fst (fst kc))) totals))
    answer_counts.

(** Lines 31-46 of geneteprocess.calculate_drought_answer_percentages, from
    [filtered_questions_df] to the sorted [final_output_df]. *)
Definition drought_breakdown (filtered_questions_df : list Row)
    : list (string * string * Q) :=
  let answer_counts := user_answer_counts filtered_questions_df in
  let merged_df :=
    merge_totals answer_counts (total_answers_per_user answer_counts) in
  let final_output_df :=
    map (fun m => let '(u, a, c, tot) := m in (u, a, pct c tot)) merged_df in
  isort (fun x y => let '(ux, _, px) := x in
                    let '(uy, _, py) := y in
                    String.ltb ux uy || (String.eqb ux uy && Qle_bool py px))
    final_output_df.

Definition drought_required_cols : list string :=
  ["hashed_user_id"; "question"; "answer"]%string.

(** geneteprocess.calculate_drought_answer_percentages *)
Definition calculate_drought_answer_percentages (input : option Table) : Run :=
  match input with
  | None => mkRun [] [empty_data_error] 1
  | Some t =>
      match missing_columns (columns t) drought_required_cols with
      | (_ :: _) as missing =>
          mkRun [] [("Error: Missing expected columns: " ++
                     String.concat ", " missing ++
                     ". Please ensure 'hashed_user_id', 'question', and 'answer' columns exist.")%string] 1
      | [] =>
          match filter_questions (rows t) "Now," with
          | [] => mkRun [Line "No questions starting with 'Now,' found in the input."] [] 0
          | filtered_questions_df =>
              mkRun [Csv_user_answer_pct (drought_breakdown filtered_questions_df)] [] 0
          end
      end
  end.

End Breakdown.

(* ------------------------------------------------------------------------- *)
(** ** processEvacuate.py and firstworkingprocessEvacuate.py *)

Module Evacuate.
Import Pandas.
Local Open Scope Z_scope.

(** A row of NokiEvacuateOutput.csv as [pd.read_csv] reads it; [None] is an
    empty (NaN) cell, [csv_created_at] the text of the created_at cell. *)
Record CsvRow := mkCsvRow {
  csv_user_id : option string;
  csv_step_name : option string;
  csv_answer : option string;
  csv_created_at : option string
}.

Record Table := mkTable { columns : list string; rows : list CsvRow }.

(** A row once [df['created_at']] holds the parsed timestamps: nanoseconds
    since 1970-01-01T00:00:00 ([datetime64[ns]]); [None] is NaT. *)
Record Row := mkRow {
  user_id : option string;
  step_name : option string;
  answer : option string;
  created_at : option Z
}.

(** [df['created_at'] = ts]: the parsed column put back, cell by cell. *)
Fixpoint assign_created_at (l : list CsvRow) (ts : list (option Z)) : list Row :=
  match l, ts with
  | r :: l', c :: ts' =>
      mkRow (csv_user_id r) (csv_step_name r) (csv_answer r) c :: assign_created_at l' ts'
  | _, _ => []
  end.

(** [pd.to_datetime] of a column and of a single string; [None] is the
    exception it raises.  The format of a column is inferred from its values,
    so whether a column parses is a property of the whole column; an empty
    cell gives NaT. *)
Record DatetimeParser := mkDatetimeParser {
  parse_column : list (option string) -> option (list (option Z));
  parse_scalar : string -> option Z
}.

(** A row of the merged frame [user_id, player_type, evacuate_choice]. *)
Record Merged := mkMerged {
  m_user_id : option string;
  player_type : option string;
  evacuate_choice : option string
}.

(** How [process_data] ends: an uncaught exception (its message), a printed
    message and [return None], or the merged frame. *)
Inductive Outcome :=
| Raised (e : string)
| Returned_none (printed : string)
| Returned (merged : list Merged).

(** What a run of the script prints and its exit status. *)
Record ScriptRun := mkScriptRun { out : list string; err : list string; status : Z }.

(** Days from 1970-01-01 to a civil date. *)
Definition days_from_civil (y m d : Z) : Z :=
  let y' := if Z.leb m 2 then y - 1 else y in
  let era := y' / 400 in
  let yoe := y' - era * 400 in
  let mp := (m + 9) mod 12 in
  let doy := (153 * mp + 2) / 5 + d - 1 in
  let doe := yoe * 365 + yoe / 4 - yoe / 100 + doy in
  era * 146097 + doe - 719468.

Definition ns_per_second : Z := 1000000000.

Definition ns_per_day : Z := 86400 * ns_per_second.

(** The [datetime64[ns]] value of "YYYY-MM-DD HH:MM:SS" (UTC). *)
Definition utc_timestamp (y mo d h mi s : Z) : Z :=
  (days_from_civil y mo d * 86400 + h * 3600 + mi * 60 + s) * ns_per_second.

(** [.dt.date] as a day number. *)
Definition date_of (t : Z) : Z := t / ns_per_day.

Definition has_col (t : Table) (c : string) : bool :=
  existsb (String.eqb c) (columns t).

(** [replace({'Petowner': 'Pet Owner'})] on a value. *)
Definition replace_petowner (a : string) : string :=
  if String.eqb a "Petowner" then "Pet Owner" else a.

(** [df['answer'] = df['answer'].replace({'Petowner': 'Pet Owner'})]; NaN
    stays NaN. *)
Definition standardize_player_types (df : list Row) : list Row :=
  map (fun r => mkRow (user_id r) (step_name r) (option_map replace_petowner (answer r))
                      (created_at r)) df.

(** [df['step_name'].isin(grp)]; [df['step_name'] == s] is the group [[s]].
    NaN is in no group. *)
Definition in_group (grp : list string) (r : Row) : bool :=
  match step_name r with Some s => existsb (String.eqb s) grp | None => false end.

(** Key equality of [drop_duplicates] and [merge]: NaN keys are equal. *)
Definition same_key (x y : option string) : bool :=
  match x, y with
  | Some a, Some b => String.eqb a b
  | None, None => true
  | _, _ => false
  end.

(** [drop_duplicates('user_id', keep='last')]: a row is kept when no later
    row has its [user_id]; the kept rows stay in order. *)
Fixpoint drop_duplicates_last (l : list Row) : list Row :=
  match l with
  | [] => []
  | r :: t =>
      if existsb (fun r' => same_key (user_id r') (user_id r)) t
      then drop_duplicates_last t
      else r :: drop_duplicates_last t
  end.

(** [pd.merge(left, right, on='user_id', how='inner')] of the two projected
    frames [[user_id, player_type]] and [[user_id, evacuate_choice]]: every
    pair of rows with equal keys, in the order of the left keys. *)
Definition merge_inner (left right : list (option string * option string))
    : list Merged :=
  flat_map (fun l => map (fun r => mkMerged (fst l) (snd l) (snd r))
                         (filter (fun r => same_key (fst r) (fst l)) right))
    left.

(** [df['created_at'].dt.date == today]: NaT is on no day. *)
Definition on_day (today : Z) (r : Row) : bool :=
  match created_at r with Some c => Z.eqb (date_of c) today | None => false end.

(** The [today] / [start] / [end] filters of processEvacuate.process_data;
    NaT fails every comparison. *)
Definition time_filter (only_today : bool) (today : Z)
    (start_ts end_ts : option Z) (df : list Row) : list Row :=
  let df1 := if only_today then filter (on_day today) df else df in
  let df2 := match start_ts with
             | Some s => filter (fun r => match created_at r with
                                          | Some c => Z.leb s c
                                          | None => false end) df1
             | None => df1
             end in
  match end_ts with
  | Some e => filter (fun r => match created_at r with
                               | Some c => Z.leb c e
                               | None => false end) df2
  | None => df2
  end.

(** The columns processEvacuate.process_data reads. *)
Definition evacuate_required_cols : list string :=
  ["user_id"; "step_name"; "answer"; "created_at"]%string.

Definition empty_data_error : string :=
  "pandas.errors.EmptyDataError: No columns to parse from file".

(** The exception of a [pd.to_datetime] call that does not parse (its
    message is pandas' and is not modelled). *)
Definition to_datetime_error (what : string) : string :=
  "ValueError: pd.to_datetime could not parse " ++ what.

Definition is_dated (r : Row) : bool :=
  match created_at r with Some _ => true | None => false end.

Section Extraction.
(** numpy's [argsort] of the [created_at] values of the non-NaT rows.
    pandas' default [kind='quicksort'] is not stable, so the order among
    equal timestamps is left open: any function that sorts by [created_at]
    is admissible (see [is_sort_by_created_at]). *)
Variable sort_dated : list Row -> list Row.
(** [pd.to_datetime(..., utc=True)] (processEvacuate). *)
Variable to_datetime_utc : DatetimeParser.
(** [pd.to_datetime(df['created_at'])] (firstworkingprocessEvacuate). *)
Variable to_datetime : list (option string) -> option (list (option Z)).

(** [sort_values('created_at')] with [na_position='last']: the non-NaT rows
    sorted, then the NaT rows in their order. *)
Definition sort_values (df : list Row) : list Row :=
  sort_dated (filter is_dated df) ++ filter (fun r => negb (is_dated r)) df.

(** Latest row per user among the rows of a question group. *)
Definition latest_response (grp : list string) (df : list Row) : list Row :=
  drop_duplicates_last (sort_values (filter (in_group grp) df)).

(** [player_types]: [[user_id, answer]] renamed to [player_type]. *)
Definition player_types (df : list Row) : list (option string * option string) :=
  map (fun r => (user_id r, answer r))
    (latest_response ["player_select"; "playerselect"]%string df).

(** [evac_choices]: [[user_id, answer]] renamed to [evacuate_choice]. *)
Definition evac_choices (df : list Row) : list (option string * option string) :=
  map (fun r => (user_id r, answer r))
    (latest_response ["evacuate_select"]%string df).

(** Normalisation, both extractions and the merge. *)
Definition extract_and_merge (df : list Row) : list Merged :=
  let df := standardize_player_types df in
  merge_inner (player_types df) (evac_choices df).

(** Column accesses after the time filter, in the order the code makes
    them: [df['answer']], [df['step_name']], [drop_duplicates('user_id')]. *)
Definition access_columns (t : Table) (df : list Row) : Outcome :=
  if negb (has_col t "answer") then Raised "KeyError: 'answer'"
  else if negb (has_col t "step_name") then Raised "KeyError: 'step_name'"
  else if negb (has_col t "user_id")
  then Raised "KeyError: Index(['user_id'], dtype='object')"
  else Returned (extract_and_merge df).

(** [if start_time: start_ts = pd.to_datetime(start_time, utc=True)]:
    [Some None] when there is no bound, [None] when the parse raises. *)
Definition parse_bound (b : option string) : option (option Z) :=
  match b with
  | None => Some None
  | Some s =>
      if String.eqb s "" then Some None
      else match parse_scalar to_datetime_utc s with
           | Some ts => Some (Some ts)
           | None => None
           end
  end.

(** processEvacuate.process_data; [input] is [None] when [pd.read_csv]
    raises EmptyDataError. *)
Definition process_data (input : option Table) (only_today : bool) (today : Z)
    (start_time end_time : option string) : Outcome :=
  match input with
  | None => Raised empty_data_error
  | Some t =>
      if negb (has_col t "created_at") then Raised "KeyError: 'created_at'"
      else
        match parse_column to_datetime_utc (map csv_created_at (rows t)) with
        | None => Raised (to_datetime_error "created_at")
        | Some ts =>
            match parse_bound start_time with
            | None => Raised (to_datetime_error "start_time")
            | Some start_ts =>
                match parse_bound end_time with
                | None => Raised (to_datetime_error "end_time")
                | Some end_ts =>
                    match time_filter only_today today start_ts end_ts
                            (assign_created_at (rows t) ts) with
                    | [] => Returned_none "Warning: No data found for the specified timeframe."
                    | df => access_columns t df
                    end
                end
            end
        end
  end.

(** The [__main__] block of processEvacuate (the success banner is
    abbreviated to its title line; plots and HTML are not modelled). *)
Definition main (input : option Table) (only_today : bool) (today : Z)
    (start_time end_time : option string) : ScriptRun :=
  match process_data input only_today today start_time end_time with
  | Raised e => mkScriptRun [] [e] 1
  | Returned_none msg => mkScriptRun [msg] [] 0
  | Returned _ => mkScriptRun ["SUCCESS: Analysis Complete"]%string [] 0
  end.

(** firstworkingprocessEvacuate.process_data; [today] is the local date
    and [today_text] its printed form. *)
Definition first_process_data (input : option Table) (only_today : bool)
    (today : Z) (today_text : string) : Outcome :=
  match input with
  | None => Raised empty_data_error
  | Some t =>
      if negb (has_col t "created_at") then Raised "KeyError: 'created_at'"
      else
        match to_datetime (map csv_created_at (rows t)) with
        | None => Raised (to_datetime_error "created_at")
        | Some ts =>
            let df := assign_created_at (rows t) ts in
            if only_today then
              match filter (on_day today) df with
              | [] => Returned_none ("No responses found for today (" ++ today_text ++ ").")%string
              | df' => access_columns t df'
              end
            else access_columns t df
        end
  end.

(** The [__main__] block of firstworkingprocessEvacuate (plots and HTML are
    not part of the printed output). *)
Definition first_main (input : option Table) (only_today : bool) (today : Z)
    (today_text : string) : ScriptRun :=
  match first_process_data input only_today today today_text with
  | Raised e => mkScriptRun [] [e] 1
  | Returned_none msg => mkScriptRun [msg] [] 0
  | Returned _ =>
      mkScriptRun ["Success! Created: player_breakdown.png, evacuation_overall.png, evacuation_by_type.png, and plots_summary.html"%string] [] 0
  end.
End Extraction.

(** The order of [sort_values('created_at')]: timestamps ascending, NaT
    after every timestamp. *)
Definition time_le (a b : Row) : Prop :=
  match created_at a, created_at b with
  | Some x, Some y => x <= y
  | None, Some _ => False
  | _, None => True
  end.

Definition time_leb (a b : Row) : bool :=
  match created_at a, created_at b with
  | Some x, Some y => Z.leb x y
  | None, Some _ => false
  | _, None => true
  end.

(** An admissible [argsort] as numpy documents it for [kind='quicksort']:
    a permutation ordered by [created_at]. *)
Definition is_sort_by_created_at (sort_dated : list Row -> list Row) : Prop :=
  forall l, Permutation l (sort_dated l) /\ Sorted time_le (sort_dated l).

(** A stable sort by [created_at] ([kind='stable']). *)
Definition stable_sort : list Row -> list Row := isort time_leb.



(** ** generate_plots: the numbers written on the figures *)

(** processEvacuate [EVAC_ORDER]. *)
Definition EVAC_ORDER : list string :=
  ["Yep, evacuate!"; "Heck no! dont evacuate"]%string.

(** [Series.unique()]: distinct values in order of first appearance. *)
Fixpoint unique_from (seen : list string) (l : list string) : list string :=
  match l with
  | [] => []
  | x :: t =>
      if existsb (String.eqb x) seen then unique_from seen t
      else x :: unique_from (x :: seen) t
  end.

Definition unique (l : list string) : list string := unique_from [] l.

(** Sorted distinct labels, as [groupby] and [unstack] order them. *)
Definition sorted_labels (l : list string) : list string :=
  isort String.leb (unique l).

(** The [(player_type, evacuate_choice)] keys of
    [df.groupby(['player_type', 'evacuate_choice'])]: rows with a NaN key
    are dropped (dropna=True). *)
Definition groupby_keys (df : list Merged) : list (string * string) :=
  flat_map (fun m => match player_type m, evacuate_choice m with
                     | Some p, Some c => [(p, c)]
                     | _, _ => []
                     end) df.

(** [df.groupby(['player_type', 'evacuate_choice']).size().unstack(fill_value=0)]
    with column labels [cols] ([reindex(columns=cols, fill_value=0)] in
    processEvacuate): one row of counts per player type. *)
Definition crosstab (cols : list string) (df : list Merged) : list (list nat) :=
  let ks := groupby_keys df in
  map (fun pt => map (fun c => List.length
                         (filter (fun k => String.eqb (fst k) pt &&
                                           String.eqb (snd k) c) ks)) cols)
    (sorted_labels (map fst ks)).

(** [grouped.sum(axis=1)] *)
Definition row_totals (g : list (list nat)) : list nat :=
  map (fold_right Nat.add 0%nat) g.

(** The bar heights of [ax3.patches]: a grouped bar plot draws its bars
    column by column, one bar per row in each column. *)
Definition patches (g : list (list nat)) (ncols : nat) : list nat :=
  flat_map (fun j => map (fun row => nth j row 0%nat) g) (seq 0 ncols).

(** Python's [enumerate] from [i]. *)
Fixpoint enumerate {A} (i : nat) (l : list A) : list (nat * A) :=
  match l with
  | [] => []
  | x :: t => (i, x) :: enumerate (S i) t
  end.

(** The labelling loop of plot 3: patch [i] with a positive height gets the
    text of [count = grouped.iloc[group_idx, cat_idx]] and [pct], with
    [group_idx = i % n_groups] and [cat_idx = i // n_groups]. *)
Definition bar_labels (g : list (list nat)) (ncols : nat) : list (nat * nat * Q) :=
  let n_groups := List.length g in
  let totals := row_totals g in
  flat_map (fun ih =>
              let i := fst ih in
              let height := snd ih in
              let group_idx := Nat.modulo i n_groups in
              let cat_idx := Nat.div i n_groups in
              let count := nth cat_idx (nth group_idx g []) 0%nat in
              let total := nth group_idx totals 0%nat in
              let p := if Nat.ltb 0 total then pct count total else 0%Q in
              if Nat.ltb 0 height then [(i, count, p)] else [])
    (enumerate 0 (patches g ncols)).

(** Plot 1 (both scripts): [counts = df['player_type'].value_counts()]
    zipped with [value_counts(normalize=True) * 100] (NaN dropped from
    both). *)
Definition plot1_labels (df : list Merged) : list (string * nat * Q) :=
  let counts := Breakdown.value_counts (map player_type df) in
  map (fun kc => (fst kc, snd kc, pct (snd kc) (sum_vals counts))) counts.

(** Plot 2 of processEvacuate: [ev_counts = value_counts().reindex(EVAC_ORDER,
    fill_value=0)] and [ev_pcts = ev_counts / ev_counts.sum() * 100]; [None]
    is NaN ([0 / 0]). *)
Definition ev_counts (df : list Merged) : list (string * nat) :=
  map (fun c => (c, List.length
                      (filter (fun m => match evacuate_choice m with
                                        | Some e => String.eqb e c
                                        | None => false end) df)))
    EVAC_ORDER.

Definition plot2_labels (df : list Merged) : list (string * nat * option Q) :=
  let counts := ev_counts df in
  let total := sum_vals counts in
  map (fun kc => (fst kc, snd kc,
                  if Nat.eqb total 0 then None else Some (pct (snd kc) total)))
    counts.

(** Plot 2 of firstworkingprocessEvacuate: [value_counts()] zipped with
    [value_counts(normalize=True) * 100]. *)
Definition first_plot2_labels (df : list Merged) : list (string * nat * option Q) :=
  let counts := Breakdown.value_counts (map evacuate_choice df) in
  map (fun kc => (fst kc, snd kc, Some (pct (snd kc) (sum_vals counts)))) counts.

(** The labels of the three figures. *)
Record Plots := mkPlots {
  plot1 : list (string * nat * Q);
  plot2 : list (string * nat * option Q);
  plot3 : list (nat * nat * Q)
}.

(** processEvacuate.generate_plots; [None] is the early [return]. *)
Definition generate_plots (df : option (list Merged)) : option Plots :=
  match df with
  | None | Some [] => None
  | Some m =>
      Some (mkPlots (plot1_labels m) (plot2_labels m)
              (bar_labels (crosstab EVAC_ORDER m) (List.length EVAC_ORDER)))
  end.

(** firstworkingprocessEvacuate.generate_plots: plot 3 has a column per
    evacuation choice of the groups. *)
Definition first_generate_plots (df : option (list Merged)) : option Plots :=
  match df with
  | None | Some [] => None
  | Some m =>
      let cols := sorted_labels (map snd (groupby_keys m)) in
      Some (mkPlots (plot1_labels m) (first_plot2_labels m)
              (bar_labels (crosstab cols m) (List.length cols)))
  end.

(** ** Sample inputs *)


(** A [pd.to_datetime] for the witnesses: every cell is read as the number
    of nanoseconds it spells in decimal, an empty cell as NaT. *)
Definition decimal_cell (s : string) : option Z :=
  if Breakdown.decimal_number s then
    Some (fold_left (fun acc c => acc * 10 + (Z.of_nat (nat_of_ascii c) - 48))
            (list_ascii_of_string s) 0)
  else None.

Definition decimal_parser : DatetimeParser :=
  mkDatetimeParser
    (fun l => fold_right (fun o acc =>
                match o, acc with
                | None, Some ts => Some (None :: ts)
                | Some s, Some ts =>
                    match decimal_cell s with Some t => Some (Some t :: ts) | None => None end
                | _, None => None
                end) (Some []) l)
    decimal_cell.

End Evacuate.

(* ------------------------------------------------------------------------- *)
(** ** Facts about the pandas operations *)

Module PandasFacts.
Import Pandas.

Lemma insert_perm {A} (before : A -> A -> bool) x l :
  Permutation (x :: l) (insert before x l).
Proof.
  induction l as [|y t IH]; simpl; [reflexivity|].
  destruct (before x y); [reflexivity|].
  rewrite perm_swap. now apply perm_skip.
Qed.

Lemma isort_perm {A} (before : A -> A -> bool) l :
  Permutation l (isort before l).
Proof.
  induction l as [|x t IH]; simpl; [reflexivity|].
  rewrite <- insert_perm. now apply perm_skip.
Qed.

Section Sorting.
Context {A : Type} (R : A -> A -> Prop) (before : A -> A -> bool).
Hypothesis before_true : forall x y, before x y = true -> R x y.
Hypothesis before_false : forall x y, before x y = false -> R y x.

Lemma insert_hdrel y x l :
  R y x -> HdRel R y l -> HdRel R y (insert before x l).
Proof.
  intros Hyx Hl. destruct l as [|z t]; simpl.
  - now constructor.
  - destruct (before x z); constructor; [assumption|].
    now inversion Hl.
Qed.

Lemma insert_sorted x l : Sorted R l -> Sorted R (insert before x l).
Proof.
  induction l as [|y t IH]; intros Hs; simpl.
  - now repeat constructor.
  - destruct (before x y) eqn:E.
    + constructor; [assumption|]. constructor. now apply before_true.
    + inversion Hs as [|? ? Ht Hh]; subst.
      constructor; [now apply IH|].
      apply insert_hdrel; [now apply before_false | assumption].
Qed.

Lemma isort_sorted l : Sorted R (isort before l).
Proof.
  induction l as [|x t IH]; simpl; [constructor|].
  now apply insert_sorted.
Qed.
End Sorting.

Lemma Permutation_filter' {A} (f : A -> bool) l l' :
  Permutation l l' -> Permutation (filter f l) (filter f l').
Proof.
  induction 1; simpl.
  - constructor.
  - destruct (f x); [now apply perm_skip | assumption].
  - destruct (f x), (f y); try reflexivity; apply perm_swap.
  - now transitivity (filter f l').
Qed.

Lemma sum_vals_perm {K} (l l' : list (K * nat)) :
  Permutation l l' -> sum_vals l = sum_vals l'.
Proof. induction 1; simpl; lia. Qed.

Lemma sumQ_perm (l l' : list Q) : Permutation l l' -> sumQ l == sumQ l'.
Proof.
  induction 1; simpl.
  - reflexivity.
  - now rewrite IHPermutation.
  - ring.
  - now rewrite IHPermutation1.
Qed.

Lemma sum_vals_ones {K} (xs : list K) :
  sum_vals (map (fun x => (x, 1%nat)) xs) = List.length xs.
Proof. induction xs; simpl; lia. Qed.

Lemma inject_nat_add (a b : nat) :
  inject_Z (Z.of_nat (a + b)) == inject_Z (Z.of_nat a) + inject_Z (Z.of_nat b).
Proof. now rewrite Nat2Z.inj_add, inject_Z_plus. Qed.

Lemma sumQ_pct {K} (l : list (K * nat)) (total : nat) :
  sumQ (map (fun ac => pct (snd ac) total) l)
  == inject_Z (Z.of_nat (sum_vals l)) / inject_Z (Z.of_nat total) * 100.
Proof.
  induction l as [|[k c] t IH]; simpl.
  - unfold Qdiv. ring.
  - rewrite IH, inject_nat_add. unfold pct, Qdiv. simpl. ring.
Qed.

Lemma pct_self (total : nat) :
  total <> 0%nat ->
  inject_Z (Z.of_nat total) / inject_Z (Z.of_nat total) * 100 == 100.
Proof.
  intros H. unfold Qdiv. rewrite Qmult_inv_r; [ring|].
  intros E. apply H. change 0 with (inject_Z 0) in E.
  rewrite inject_Z_injective in E. lia.
Qed.

Section GroupSumFacts.
Context {K : Type} (keq : K -> K -> bool).
Hypothesis keq_spec : forall a b, keq a b = true <-> a = b.

Lemma add_to_filter_sum (P : K -> bool) acc k v :
  sum_vals (filter (fun kv => P (fst kv)) (add_to keq acc k v))
  = (sum_vals (filter (fun kv => P (fst kv)) acc) + if P k then v else 0)%nat.
Proof.
  induction acc as [|[k' s] t IH]; simpl.
  - destruct (P k); simpl; lia.
  - destruct (keq k' k) eqn:E.
    + apply keq_spec in E. subst k'. simpl.
      destruct (P k); simpl; lia.
    + simpl. destruct (P k'); simpl; rewrite IH; lia.
Qed.

Lemma group_sum_filter_sum (P : K -> bool) l :
  sum_vals (filter (fun kv => P (fst kv)) (group_sum keq l))
  = sum_vals (filter (fun kv => P (fst kv)) l).
Proof.
  unfold group_sum.
  assert (G : forall acc,
    sum_vals (filter (fun kv => P (fst kv))
      (fold_left (fun acc kv => add_to keq acc (fst kv) (snd kv)) l acc))
    = (sum_vals (filter (fun kv => P (fst kv)) acc)
       + sum_vals (filter (fun kv => P (fst kv)) l))%nat).
  { induction l as [|[k v] t IH]; intros acc; simpl; [lia|].
    rewrite IH, add_to_filter_sum. simpl.
    destruct (P k); simpl; lia. }
  rewrite G. simpl. lia.
Qed.

Lemma add_to_keys acc k v x :
  In x (map fst (add_to keq acc k v)) <-> In x (map fst acc) \/ x = k.
Proof.
  induction acc as [|[k' s] t IH]; simpl.
  - intuition.
  - destruct (keq k' k) eqn:E.
    + apply keq_spec in E. subst k'. simpl. intuition.
    + simpl. rewrite IH. intuition.
Qed.

Lemma add_to_nodup acc k v :
  NoDup (map fst acc) -> NoDup (map fst (add_to keq acc k v)).
Proof.
  induction acc as [|[k' s] t IH]; simpl; intros Hn.
  - constructor; [easy | constructor].
  - inversion Hn as [|? ? Hnot Ht]; subst.
    destruct (keq k' k) eqn:E; simpl.
    + now constructor.
    + constructor; [|now apply IH].
      rewrite add_to_keys. intros [Hin | E']; [contradiction|].
      rewrite E' in E. assert (keq k k = true) by now apply keq_spec.
      congruence.
Qed.

Lemma group_sum_keys_nodup l :
  NoDup (map fst (group_sum keq l)) /\
  (forall x, In x (map fst (group_sum keq l)) <-> In x (map fst l)).
Proof.
  unfold group_sum.
  assert (G : forall acc, NoDup (map fst acc) ->
    NoDup (map fst (fold_left (fun acc kv => add_to keq acc (fst kv) (snd kv)) l acc)) /\
    (forall x, In x (map fst (fold_left (fun acc kv => add_to keq acc (fst kv) (snd kv)) l acc))
               <-> In x (map fst acc) \/ In x (map fst l))).
  { induction l as [|[k v] t IH]; intros acc Hn; simpl.
    - split; [assumption | intuition].
    - destruct (IH (add_to keq acc k v)) as [H1 H2]; [now apply add_to_nodup|].
      split; [assumption|]. intros x. rewrite H2, add_to_keys. intuition. }
  destruct (G [] (NoDup_nil _)) as [H1 H2]. split; [assumption|].
  intros x. rewrite H2. simpl. intuition.
Qed.

Lemma filter_key_absent (G : list (K * nat)) k :
  ~ In k (map fst G) -> filter (fun kv => keq (fst kv) k) G = [].
Proof.
  induction G as [|[k' s] t IH]; simpl; intros Hnot; [reflexivity|].
  destruct (keq k' k) eqn:E.
  - apply keq_spec in E. subst k'. exfalso. apply Hnot. now left.
  - apply IH. intros H. apply Hnot. now right.
Qed.

Lemma filter_key_single (G : list (K * nat)) k c :
  NoDup (map fst G) -> In (k, c) G ->
  filter (fun kv => keq (fst kv) k) G = [(k, c)].
Proof.
  induction G as [|[k' s] t IH]; simpl; intros Hn Hin; [contradiction|].
  inversion Hn as [|? ? Hnot Ht]; subst.
  destruct Hin as [E | Hin].
  - injection E as -> ->.
    assert (keq k k = true) as -> by now apply keq_spec.
    f_equal. now apply filter_key_absent.
  - destruct (keq k' k) eqn:E.
    + apply keq_spec in E. subst k'. exfalso. apply Hnot.
      apply (in_map fst) in Hin. exact Hin.
    + now apply IH.
Qed.

Lemma group_sum_value l k c :
  In (k, c) (group_sum keq l) ->
  c = sum_vals (filter (fun kv => keq (fst kv) k) l).
Proof.
  intros Hin.
  rewrite <- (group_sum_filter_sum (fun x => keq x k)).
  rewrite (filter_key_single _ k c); [simpl; lia | | assumption].
  apply group_sum_keys_nodup.
Qed.
End GroupSumFacts.

End PandasFacts.

(* ------------------------------------------------------------------------- *)
(** ** Facts about the breakdowns *)

Module BreakdownFacts.
Import Pandas PandasFacts Breakdown.
Local Open Scope string_scope.

Lemma string_eqb_spec a b : String.eqb a b = true <-> a = b.
Proof. apply String.eqb_eq. Qed.

Lemma pair_eqb_spec (a b : string * string) : pair_eqb a b = true <-> a = b.
Proof.
  destruct a as [a1 a2], b as [b1 b2]. unfold pair_eqb. simpl.
  rewrite andb_true_iff, !String.eqb_eq. split.
  - now intros [-> ->].
  - now injection 1 as -> ->.
Qed.

Lemma filter_all {A} (l : list A) : filter (fun _ => true) l = l.
Proof. induction l; simpl; congruence. Qed.

Lemma sum_vals_filter_ones {K} (P : K -> bool) (xs : list K) :
  sum_vals (filter (fun kv => P (fst kv)) (map (fun x => (x, 1%nat)) xs))
  = List.length (filter P xs).
Proof. induction xs as [|x t IH]; simpl; [reflexivity|]. destruct (P x); simpl; lia. Qed.

Lemma value_counts_total l :
  sum_vals (value_counts l) = List.length (dropna l).
Proof.
  unfold value_counts. rewrite <- (sum_vals_perm _ _ (isort_perm _ _)).
  rewrite <- (filter_all (group_sum _ _)).
  rewrite (group_sum_filter_sum String.eqb string_eqb_spec (fun _ => true)).
  rewrite filter_all. apply sum_vals_ones.
Qed.

Lemma value_counts_value l a c :
  In (a, c) (value_counts l) ->
  c = List.length (filter (fun s => String.eqb s a) (dropna l)).
Proof.
  unfold value_counts. intros Hin.
  apply (Permutation_in _ (Permutation_sym (isort_perm _ _))) in Hin.
  rewrite (group_sum_value String.eqb string_eqb_spec _ _ _ Hin).
  apply (sum_vals_filter_ones (fun s => String.eqb s a)).
Qed.

Lemma dropna_answered l :
  dropna (map answer (answered_rows l)) = dropna (map answer l).
Proof.
  unfold answered_rows in *.
  induction l as [|r t IH]; simpl; [reflexivity|].
  unfold has_answer at 1.
  destruct (answer r) eqn:E; simpl; rewrite ?E; simpl; congruence.
Qed.

Lemma dropna_length l :
  List.length (dropna (map answer l)) = List.length (answered_rows l).
Proof.
  unfold answered_rows in *.
  induction l as [|r t IH]; simpl; [reflexivity|].
  unfold has_answer at 1.
  destruct (answer r) eqn:E; simpl; rewrite ?E; simpl; congruence.
Qed.

Lemma dropna_count a l :
  List.length (filter (fun s => String.eqb s a) (dropna (map answer l)))
  = count_answer a l.
Proof.
  unfold count_answer.
  induction l as [|r t IH]; simpl; [reflexivity|].
  destruct (answer r) as [s|]; simpl; [|assumption].
  destruct (String.eqb s a); simpl; congruence.
Qed.

Lemma filter_questions_answered df p :
  filter_questions (answered_rows df) p = answered_rows (filter_questions df p).
Proof.
  unfold filter_questions, answered_rows.
  induction df as [|r t IH]; simpl; [reflexivity|].
  destruct (has_answer r) eqn:E1, (startswith p (question r)) eqn:E2;
    simpl; rewrite ?E1, ?E2; congruence.
Qed.

Lemma answered_rows_nil_total l :
  answered_rows l = [] -> sum_vals (value_counts (map answer l)) = 0%nat.
Proof.
  intros H. rewrite value_counts_total, dropna_length, H. reflexivity.
Qed.

Lemma aggregated_answered df p :
  calculate_aggregated_answer_percentages df p
  = calculate_aggregated_answer_percentages (answered_rows df) p.
Proof.
  unfold calculate_aggregated_answer_percentages.
  rewrite filter_questions_answered.
  set (f := filter_questions df p).
  destruct f as [|r t] eqn:Ef; [reflexivity|].
  destruct (answered_rows (r :: t)) as [|r' t'] eqn:Ea.
  - rewrite (answered_rows_nil_total _ Ea). reflexivity.
  - rewrite <- Ea.
    assert (E : value_counts (map answer (answered_rows (r :: t)))
                = value_counts (map answer (r :: t)))
      by (unfold value_counts; now rewrite dropna_answered).
    now rewrite E.
Qed.

Lemma aggregated_sum df p :
  (exists r, In r (filter_questions df p) /\ answer r <> None) ->
  sumQ (map snd (calculate_aggregated_answer_percentages df p)) == 100.
Proof.
  intros [r [Hin Ha]].
  unfold calculate_aggregated_answer_percentages.
  destruct (filter_questions df p) as [|r0 t] eqn:Ef; [contradiction|].
  rewrite <- Ef in *.
  set (ac := value_counts (map answer (filter_questions df p))).
  assert (Hpos : sum_vals ac <> 0%nat).
  { unfold ac. rewrite value_counts_total, dropna_length.
    assert (In r (answered_rows (filter_questions df p))).
    { apply filter_In. split; [assumption|]. unfold has_answer.
      destruct (answer r); congruence. }
    destruct (answered_rows (filter_questions df p)); simpl in *; [contradiction | lia]. }
  apply Nat.eqb_neq in Hpos as Hb. rewrite Hb.
  rewrite <- sumQ_perm by (apply Permutation_map, isort_perm).
  rewrite map_map. simpl.
  rewrite (sumQ_pct ac (sum_vals ac)).
  apply pct_self. apply Nat.eqb_neq, Hb.
Qed.

Lemma aggregated_all_missing df p :
  (forall r, In r (filter_questions df p) -> answer r = None) ->
  calculate_aggregated_answer_percentages df p = [].
Proof.
  intros H. unfold calculate_aggregated_answer_percentages.
  destruct (filter_questions df p) as [|r0 t] eqn:Ef; [reflexivity|].
  rewrite <- Ef in *.
  rewrite answered_rows_nil_total; [reflexivity|].
  unfold answered_rows. clear Ef.
  induction (filter_questions df p) as [|r t' IH]; simpl; [reflexivity|].
  unfold has_answer at 1. rewrite (H r) by now left.
  apply IH. intros r' Hr'. apply H. now right.
Qed.

Lemma sum_vals_filter_map {K K'} (P : K' -> bool) (h : K -> K') (l : list (K * nat)) :
  sum_vals (filter (fun kv => P (fst kv)) (map (fun kc => (h (fst kc), snd kc)) l))
  = sum_vals (filter (fun kc => P (h (fst kc))) l).
Proof. induction l as [|[k c] t IH]; simpl; [reflexivity|]. destruct (P (h k)); simpl; lia. Qed.

Lemma filter_map_swap {A B} (P : B -> bool) (f : A -> B) l :
  filter P (map f l) = map f (filter (fun x => P (f x)) l).
Proof. induction l as [|x t IH]; simpl; [reflexivity|]. destruct (P (f x)); simpl; congruence. Qed.

Lemma flat_map_single {A B} (f : A -> list B) (g : A -> B) l :
  (forall x, In x l -> f x = [g x]) -> flat_map f l = map g l.
Proof.
  induction l as [|x t IH]; simpl; intros H; [reflexivity|].
  rewrite H by now left. simpl. f_equal. apply IH. intros y Hy. apply H. now right.
Qed.

(** The entry of [total_answers_per_user] for the user of a count row. *)
Lemma totals_lookup (ac : list (string * string * nat)) kc :
  In kc ac ->
  filter (fun ut => String.eqb (fst ut) (fst (fst kc))) (total_answers_per_user ac)
  = [(fst (fst kc), sum_vals (filter (fun kc' => String.eqb (fst (fst kc')) (fst (fst kc))) ac))].
Proof.
  intros Hin. set (v := fst (fst kc)).
  set (L := map (fun kc => (fst (fst kc), snd kc)) ac).
  set (G := group_sum String.eqb L).
  destruct (group_sum_keys_nodup String.eqb string_eqb_spec L) as [Hnd Hkeys].
  assert (Hv : In v (map fst G)).
  { apply Hkeys. unfold L. rewrite map_map. simpl. now apply (in_map (fun kc => fst (fst kc))). }
  apply in_map_iff in Hv as [[v' c'] [Ev HinG]]. simpl in Ev. subst v'.
  pose proof (filter_key_single String.eqb string_eqb_spec G v c' Hnd HinG) as F.
  pose proof (group_sum_value String.eqb string_eqb_spec L v c' HinG) as C.
  unfold L in C. rewrite (sum_vals_filter_map (fun x => String.eqb x v)) in C.
  assert (P : Permutation (filter (fun ut => String.eqb (fst ut) v) G)
                          (filter (fun ut => String.eqb (fst ut) v) (total_answers_per_user ac)))
    by (apply Permutation_filter', isort_perm).
  rewrite F in P. apply Permutation_length_1_inv in P. rewrite P. now rewrite C.
Qed.

Lemma merge_totals_eq (ac : list (string * string * nat)) :
  merge_totals ac (total_answers_per_user ac)
  = map (fun kc => (fst (fst kc), snd (fst kc), snd kc,
                    sum_vals (filter (fun kc' => String.eqb (fst (fst kc')) (fst (fst kc))) ac)))
        ac.
Proof.
  unfold merge_totals. apply flat_map_single. intros kc Hin.
  rewrite (totals_lookup ac kc Hin). reflexivity.
Qed.

(** The per-user breakdown is, up to order, one row per count row. *)
Lemma drought_breakdown_perm l :
  Permutation (drought_breakdown l)
    (map (fun kc => (fst kc,
                     pct (snd kc) (sum_vals (filter (fun kc' => String.eqb (fst (fst kc')) (fst (fst kc)))
                                                    (user_answer_counts l)))))
         (user_answer_counts l)).
Proof.
  unfold drought_breakdown. cbv zeta. rewrite merge_totals_eq, map_map.
  rewrite <- isort_perm. apply Permutation_refl'. apply map_ext.
  intros [[u a] c]. reflexivity.
Qed.

Lemma user_answer_counts_value l k c :
  In (k, c) (user_answer_counts l) ->
  c = List.length (filter (fun k' => pair_eqb k' k) (groupby_user_answer l)).
Proof.
  unfold user_answer_counts. intros Hin.
  apply (Permutation_in _ (Permutation_sym (isort_perm _ _))) in Hin.
  rewrite (group_sum_value pair_eqb pair_eqb_spec _ _ _ Hin).
  apply (sum_vals_filter_ones (fun k' => pair_eqb k' k)).
Qed.

Lemma user_total_count l u :
  sum_vals (filter (fun kc => String.eqb (fst (fst kc)) u) (user_answer_counts l))
  = List.length (filter (fun k => String.eqb (fst k) u) (groupby_user_answer l)).
Proof.
  unfold user_answer_counts.
  rewrite <- (sum_vals_perm _ _ (Permutation_filter' _ _ _ (isort_perm _ _))).
  rewrite (group_sum_filter_sum pair_eqb pair_eqb_spec (fun k => String.eqb (fst k) u)).
  apply (sum_vals_filter_ones (fun k => String.eqb (fst k) u)).
Qed.

Lemma user_answer_counts_key l k c :
  In (k, c) (user_answer_counts l) -> In k (groupby_user_answer l).
Proof.
  unfold user_answer_counts. intros Hin.
  apply (Permutation_in _ (Permutation_sym (isort_perm _ _))) in Hin.
  apply (in_map fst) in Hin.
  apply (proj1 (proj2 (group_sum_keys_nodup pair_eqb pair_eqb_spec _) k)) in Hin.
  rewrite map_map in Hin. simpl in Hin. now rewrite map_id in Hin.
Qed.

Lemma drought_sum l u :
  (exists a q, In (u, a, q) (drought_breakdown l)) ->
  sumQ (map snd (filter (fun x => String.eqb (fst (fst x)) u) (drought_breakdown l))) == 100.
Proof.
  intros [a [q Hin]].
  set (ac := user_answer_counts l).
  set (T := sum_vals (filter (fun kc' => String.eqb (fst (fst kc')) u) ac)).
  assert (HT : T <> 0%nat).
  { unfold T, ac. rewrite user_total_count.
    apply (Permutation_in _ (drought_breakdown_perm l)) in Hin.
    apply in_map_iff in Hin as [[k c] [E Hk]]. simpl in E. injection E as E1 _.
    apply user_answer_counts_key in Hk. subst k.
    assert (In (u, a) (filter (fun k => String.eqb (fst k) u) (groupby_user_answer l)))
      as Hf by (apply filter_In; split; [assumption | apply String.eqb_refl]).
    intros Hz. apply length_zero_iff_nil in Hz. rewrite Hz in Hf. contradiction. }
  rewrite (sumQ_perm _ _ (Permutation_map _ (Permutation_filter' _ _ _ (drought_breakdown_perm l)))).
  rewrite filter_map_swap, map_map. simpl.
  rewrite (map_ext_in _ (fun kc => pct (snd kc) T)).
  - rewrite sumQ_pct. fold T. now apply pct_self.
  - intros kc Hkc. apply filter_In in Hkc as [_ Hu].
    apply String.eqb_eq in Hu. unfold T. rewrite Hu. reflexivity.
Qed.

Lemma groupby_answered l :
  groupby_user_answer (answered_rows l) = groupby_user_answer l.
Proof.
  unfold answered_rows. induction l as [|r t IH]; simpl; [reflexivity|].
  destruct r as [hu si qu [an|] ca]; simpl; destruct hu; simpl; congruence.
Qed.

Lemma keys_count_pair l u a :
  List.length (filter (fun k' => pair_eqb k' (u, a)) (groupby_user_answer l))
  = count_user_answer u a l.
Proof.
  unfold count_user_answer.
  induction l as [|r t IH]; simpl; [reflexivity|].
  destruct r as [[u'|] si qu [a'|] ca]; simpl; rewrite ?andb_false_r; try assumption.
  change (pair_eqb (u', a') (u, a)) with (String.eqb u' u && String.eqb a' a).
  destruct (String.eqb u' u), (String.eqb a' a); simpl; congruence.
Qed.

Lemma keys_count_user l u :
  List.length (filter (fun k => String.eqb (fst k) u) (groupby_user_answer l))
  = count_user_answered u l.
Proof.
  unfold count_user_answered, has_answer.
  induction l as [|r t IH]; simpl; [reflexivity|].
  destruct r as [[u'|] si qu [a'|] ca]; simpl; rewrite ?andb_false_r; try assumption.
  destruct (String.eqb u' u); simpl; congruence.
Qed.

Lemma drought_answered l :
  drought_breakdown l = drought_breakdown (answered_rows l).
Proof. unfold drought_breakdown, user_answer_counts. now rewrite groupby_answered. Qed.

Lemma drought_value l u a q :
  In (u, a, q) (drought_breakdown l) ->
  q == pct (count_user_answer u a l) (count_user_answered u l).
Proof.
  intros Hin.
  apply (Permutation_in _ (drought_breakdown_perm l)) in Hin.
  apply in_map_iff in Hin as [[k c] [E Hk]]. simpl in E.
  injection E as E1 E2. subst k q.
  rewrite (user_answer_counts_value _ _ _ Hk), keys_count_pair.
  simpl. rewrite user_total_count, keys_count_user. reflexivity.
Qed.

Lemma aggregated_value df p a q :
  In (a, q) (calculate_aggregated_answer_percentages df p) ->
  q == pct (count_answer a (filter_questions df p))
           (List.length (answered_rows (filter_questions df p))).
Proof.
  unfold calculate_aggregated_answer_percentages.
  destruct (filter_questions df p) as [|r0 t] eqn:Ef; [contradiction|].
  rewrite <- Ef.
  destruct (Nat.eqb _ 0); [contradiction|].
  intros Hin.
  apply (Permutation_in _ (Permutation_sym (isort_perm _ _))) in Hin.
  apply in_map_iff in Hin as [[a' c] [E Hk]]. simpl in E.
  injection E as E1 E2. subst a'. rewrite <- E2.
  rewrite (value_counts_value _ _ _ Hk), dropna_count.
  rewrite value_counts_total, dropna_length. reflexivity.
Qed.

(** C1 (amended).  Global mode ([calculate_aggregated_answer_percentages]):
    when some row matching the prefix has a non-missing answer, the
    percentages sum to 100; when every matching row has a missing answer
    the result is the empty frame (the [total_answers == 0] guard).
    Per-entity mode ([drought_breakdown], geneteprocess): for every
    [hashed_user_id] in the output its percentages sum to 100. *)
Theorem percentages_sum_to_100 :
  (forall df prefix,
     (exists r, In r (filter_questions df prefix) /\ answer r <> None) ->
     sumQ (map snd (calculate_aggregated_answer_percentages df prefix)) == 100) /\
  (forall df prefix,
     (forall r, In r (filter_questions df prefix) -> answer r = None) ->
     calculate_aggregated_answer_percentages df prefix = []) /\
  (forall filtered_questions_df u,
     (exists a q, In (u, a, q) (drought_breakdown filtered_questions_df)) ->
     sumQ (map snd (filter (fun x => String.eqb (fst (fst x)) u)
                     (drought_breakdown filtered_questions_df))) == 100).
Proof.
  split; [exact aggregated_sum|]. split; [exact aggregated_all_missing|].
  exact drought_sum.
Qed.

(** C1 counterexample.  One row matches "Now," but its answer is NaN:
    the global breakdown is empty, so its percentages sum to 0, not 100. *)
Lemma percentages_sum_to_100_counterexample :
  ~ (forall df prefix, filter_questions df prefix <> [] ->
       sumQ (map snd (calculate_aggregated_answer_percentages df prefix)) == 100).
Proof.
  intros H.
  specialize (H [mkRow (Some "u1") (Some "s1") (Some "Now, drought?") None (Some 0%Z)]
                "Now,"%string).
  assert (E : ~ 0 == 100) by (intros E; discriminate E).
  apply E. apply H. discriminate.
Qed.

(** C1 witness: the theorem at the spec's scenario (answers "A" and "B" to
    "Now, drought?"), and per user. *)
Lemma percentages_sum_to_100_witness :
  sumQ (map snd (calculate_aggregated_answer_percentages
     [mkRow (Some "u1") None (Some "Now, drought?") (Some "A") None;
      mkRow (Some "u2") None (Some "Now, drought?") (Some "B") None] "Now,")) == 100 /\
  calculate_aggregated_answer_percentages
     [mkRow (Some "u1") None (Some "Now, drought?") None None] "Now," = [] /\
  sumQ (map snd (filter (fun x => String.eqb (fst (fst x)) "u1")
     (drought_breakdown
        [mkRow (Some "u1") None (Some "Now, a") (Some "A") None;
         mkRow (Some "u1") None (Some "Now, b") (Some "B") None;
         mkRow (Some "u1") None (Some "Now, c") (Some "B") None]))) == 100.
Proof.
  destruct percentages_sum_to_100 as [H1 [H2 H3]].
  split; [|split].
  - apply H1. eexists. split; [left; reflexivity | discriminate].
  - apply H2. intros r [<- | []]. reflexivity.
  - apply H3. exists "A"%string, (100 # 3). vm_compute. right. left. reflexivity.
Defined.

(** C10.  A matching row with a NaN answer counts neither in an answer's
    count nor in the denominator: both breakdowns are unchanged when those
    rows are removed, and every reported percentage is the answer's share
    among the non-missing answers (per user in per-entity mode). *)
Theorem missing_answers_excluded :
  (forall df prefix,
     calculate_aggregated_answer_percentages df prefix
     = calculate_aggregated_answer_percentages (answered_rows df) prefix) /\
  (forall df prefix a q,
     In (a, q) (calculate_aggregated_answer_percentages df prefix) ->
     q == pct (count_answer a (filter_questions df prefix))
              (List.length (answered_rows (filter_questions df prefix)))) /\
  (forall filtered_questions_df,
     drought_breakdown filtered_questions_df
     = drought_breakdown (answered_rows filtered_questions_df)) /\
  (forall filtered_questions_df u a q,
     In (u, a, q) (drought_breakdown filtered_questions_df) ->
     q == pct (count_user_answer u a filtered_questions_df)
              (count_user_answered u filtered_questions_df)).
Proof.
  split; [exact aggregated_answered|]. split; [exact aggregated_value|].
  split; [exact drought_answered|]. exact drought_value.
Qed.

(** C10 witness: rows answering "A", "A" and NaN give "A" at 2/2 = 100%. *)
Lemma missing_answers_excluded_witness :
  In ("A"%string, 200 # 2) (calculate_aggregated_answer_percentages
     [mkRow (Some "u1") None (Some "Now, x") (Some "A") None;
      mkRow (Some "u1") None (Some "Now, y") (Some "A") None;
      mkRow (Some "u1") None (Some "Now, z") None None] "Now,") /\
  200 # 2 == pct 2 2 /\
  In ("u1"%string, "A"%string, 100) (drought_breakdown
     [mkRow (Some "u1") None (Some "Now, x") (Some "A") None;
      mkRow (Some "u1") None (Some "Now, z") None None]) /\
  100 == pct 1 1.
Proof.
  destruct missing_answers_excluded as [_ [H2 [_ H4]]].
  assert (I1 : In ("A"%string, 200 # 2) (calculate_aggregated_answer_percentages
     [mkRow (Some "u1") None (Some "Now, x") (Some "A") None;
      mkRow (Some "u1") None (Some "Now, y") (Some "A") None;
      mkRow (Some "u1") None (Some "Now, z") None None] "Now,"))
    by (vm_compute; left; reflexivity).
  assert (I2 : In ("u1"%string, "A"%string, 100) (drought_breakdown
     [mkRow (Some "u1") None (Some "Now, x") (Some "A") None;
      mkRow (Some "u1") None (Some "Now, z") None None]))
    by (vm_compute; left; reflexivity).
  split; [exact I1|]. split; [exact (H2 _ _ _ _ I1)|].
  split; [exact I2|]. exact (H4 _ _ _ _ I2).
Defined.

Lemma opt_eqb_spec x y : opt_eqb x y = true <-> x = y.
Proof.
  destruct x as [a|], y as [b|]; simpl; try (split; congruence).
  rewrite String.eqb_eq. split; congruence.
Qed.

Lemma answer_text_is_2009_spec r : answer_text_is_2009 r = true <-> answer r = Some "2009".
Proof.
  unfold answer_text_is_2009. destruct (answer r) as [a|]; [|split; discriminate].
  rewrite String.eqb_eq. split; congruence.
Qed.

Lemma answer_is_2009_spec numeric r :
  answer_is_2009 numeric r = true <-> numeric = false /\ answer r = Some "2009".
Proof.
  unfold answer_is_2009. rewrite andb_true_iff, negb_true_iff, answer_text_is_2009_spec.
  reflexivity.
Qed.

Lemma existsb_opt_eqb x l : existsb (opt_eqb x) l = true <-> In x l.
Proof.
  rewrite existsb_exists. split.
  - intros [y [Hy E]]. apply opt_eqb_spec in E. now subst.
  - intros H. exists x. split; [assumption | now apply opt_eqb_spec].
Qed.

Lemma unique_from_In seen l x :
  In x (unique_from seen l) <-> In x l /\ ~ In x seen.
Proof.
  revert seen. induction l as [|y t IH]; intros seen; simpl; [tauto|].
  destruct (existsb (opt_eqb y) seen) eqn:E.
  - apply existsb_opt_eqb in E. rewrite IH. split.
    + intros [H1 H2]. auto.
    + intros [[<- | H1] H2]; [contradiction | auto].
  - assert (Hy : ~ In y seen) by (intros H; apply existsb_opt_eqb in H; congruence).
    simpl. rewrite IH. simpl. split.
    + intros [<- | [H1 H2]]; [auto | split; [auto | tauto]].
    + intros [[<- | H1] H2]; [now left|].
      destruct (opt_eqb_spec y x) as [_ ?].
      destruct (opt_eqb y x) eqn:Eyx.
      * apply opt_eqb_spec in Eyx. now left.
      * right. split; [assumption|]. intros [Hx | Hx]; [|contradiction].
        subst. rewrite (proj2 (opt_eqb_spec x x) eq_refl) in Eyx. discriminate.
Qed.

Lemma sessions_spec numeric df sid :
  In sid (sessions_with_2009_answer numeric df) <->
  numeric = false /\
  exists r, In r df /\ startswith "First" (question r) = true /\
            answer r = Some "2009" /\ session_id r = sid.
Proof.
  unfold sessions_with_2009_answer, unique, filter_questions.
  rewrite unique_from_In, in_map_iff. simpl. split.
  - intros [[r [E Hr]] _]. apply filter_In in Hr as [Hr H2].
    apply filter_In in Hr as [Hr H1]. apply answer_is_2009_spec in H2 as [Hn H2].
    split; [assumption|]. eauto.
  - intros [Hn [r [Hr [H1 [H2 E]]]]]. split; [|tauto]. exists r. split; [assumption|].
    apply filter_In. split; [apply filter_In; now split | now apply answer_is_2009_spec].
Qed.







Lemma missing_columns_spec c cols req :
  In c (missing_columns cols req) <-> In c req /\ ~ In c cols.
Proof.
  unfold missing_columns. rewrite filter_In, negb_true_iff.
  assert (E : existsb (String.eqb c) cols = true <-> In c cols).
  { rewrite existsb_exists. split.
    - intros [x [Hx Ex]]. apply String.eqb_eq in Ex. now subst.
    - intros H. exists c. split; [assumption | apply String.eqb_refl]. }
  split.
  - intros [H1 H2]. split; [assumption|]. rewrite <- E. congruence.
  - intros [H1 H2]. split; [assumption|].
    destruct (existsb (String.eqb c) cols); [exfalso; apply H2, E|]; reflexivity.
Qed.

Lemma process_missing to_dt is_number t sd :
  missing_columns (columns t) required_cols <> [] ->
  process_and_output_percentages to_dt is_number (Some t) sd =
    mkRun [] [("Error: Missing expected columns: " ++
               String.concat ", " (missing_columns (columns t) required_cols) ++
               ". Please ensure 'hashed_user_id', 'question', 'answer', 'session_id', and 'created_at' columns exist.")%string] 1.
Proof.
  intros H. unfold process_and_output_percentages.
  destruct (missing_columns (columns t) required_cols); [contradiction | reflexivity].
Qed.

Lemma drought_missing t :
  missing_columns (columns t) drought_required_cols <> [] ->
  calculate_drought_answer_percentages (Some t) =
    mkRun [] [("Error: Missing expected columns: " ++
               String.concat ", " (missing_columns (columns t) drought_required_cols) ++
               ". Please ensure 'hashed_user_id', 'question', and 'answer' columns exist.")%string] 1.
Proof.
  intros H. unfold calculate_drought_answer_percentages.
  destruct (missing_columns (columns t) drought_required_cols); [contradiction | reflexivity].
Qed.

Lemma missing_columns_nonempty c cols req :
  In c req -> ~ In c cols -> missing_columns cols req <> [].
Proof.
  intros H1 H2 E.
  assert (H : In c (missing_columns cols req))
    by (apply (proj2 (missing_columns_spec c cols req)); split; assumption).
  rewrite E in H. contradiction.
Qed.







End BreakdownFacts.

(* ------------------------------------------------------------------------- *)
(** ** Facts about the latest-response extraction and the merge *)

Module EvacuateFacts.
Import Pandas PandasFacts Evacuate.
Local Open Scope string_scope.
Local Open Scope Z_scope.

Lemma time_leb_true a b : time_leb a b = true -> time_le a b.
Proof.
  unfold time_leb, time_le. destruct (created_at a), (created_at b); try easy.
  apply Z.leb_le.
Qed.

Lemma time_leb_false a b : time_leb a b = false -> time_le b a.
Proof.
  unfold time_leb, time_le. destruct (created_at a), (created_at b); try easy.
  intros E. apply Z.leb_gt in E. lia.
Qed.

Lemma time_le_refl a : time_le a a.
Proof. unfold time_le. destruct (created_at a); [lia | exact I]. Qed.

Lemma time_le_trans a b c : time_le a b -> time_le b c -> time_le a c.
Proof.
  unfold time_le. destruct (created_at a), (created_at b), (created_at c);
    intros; try easy; lia.
Qed.

Lemma stable_sort_ok : is_sort_by_created_at stable_sort.
Proof.
  intros l. split; [apply isort_perm|].
  apply isort_sorted; [exact time_leb_true | exact time_leb_false].
Qed.

Lemma same_key_spec x y : same_key x y = true <-> x = y.
Proof.
  destruct x as [a|], y as [b|]; simpl; try (split; congruence).
  rewrite String.eqb_eq. split; congruence.
Qed.

Lemma filter_partition_perm {A} (f : A -> bool) l :
  Permutation l (filter f l ++ filter (fun x => negb (f x)) l).
Proof.
  induction l as [|x t IH]; simpl; [reflexivity|].
  destruct (f x); simpl.
  - now apply perm_skip.
  - now apply Permutation_cons_app.
Qed.

Lemma StronglySorted_app {A} (R : A -> A -> Prop) l1 l2 :
  StronglySorted R l1 -> StronglySorted R l2 ->
  (forall a b, In a l1 -> In b l2 -> R a b) -> StronglySorted R (l1 ++ l2).
Proof.
  induction l1 as [|x t IH]; simpl; intros H1 H2 H; [assumption|].
  inversion H1 as [|? ? Ht Hx]; subst. constructor.
  - apply IH; [assumption | assumption |].
    intros a b Ha Hb. apply H; [now right | assumption].
  - apply Forall_app. split; [assumption|].
    apply Forall_forall. intros b Hb. apply H; [now left | assumption].
Qed.

Lemma nat_rows_sorted l :
  (forall x, In x l -> created_at x = None) -> StronglySorted time_le l.
Proof.
  induction l as [|x t IH]; intros H; constructor.
  - apply IH. intros y Hy. apply H. now right.
  - apply Forall_forall. intros y Hy. unfold time_le. rewrite (H y (or_intror Hy)).
    destruct (created_at x); exact I.
Qed.

Lemma ddl_sub l r : In r (drop_duplicates_last l) -> In r l.
Proof.
  induction l as [|x t IH]; simpl; [tauto|].
  destruct (existsb _ t); simpl; intuition.
Qed.

Lemma ddl_users l u :
  In u (map user_id (drop_duplicates_last l)) <-> In u (map user_id l).
Proof.
  induction l as [|x t IH]; simpl; [tauto|].
  destruct (existsb (fun r' => same_key (user_id r') (user_id x)) t) eqn:E; simpl.
  - rewrite IH. split; [tauto|]. intros [<- | H]; [|assumption].
    apply existsb_exists in E as [r' [Hr' E']]. apply same_key_spec in E'.
    rewrite <- E'. now apply in_map.
  - now rewrite IH.
Qed.

Lemma ddl_nodup l : NoDup (map user_id (drop_duplicates_last l)).
Proof.
  induction l as [|x t IH]; simpl; [constructor|].
  destruct (existsb (fun r' => same_key (user_id r') (user_id x)) t) eqn:E; simpl;
    [assumption|].
  constructor; [|assumption]. rewrite ddl_users. intros Hin.
  apply in_map_iff in Hin as [r' [E' Hr']].
  assert (existsb (fun r' => same_key (user_id r') (user_id x)) t = true)
    by (apply existsb_exists; exists r'; split; [assumption | now apply same_key_spec]).
  congruence.
Qed.

Lemma ddl_max s :
  StronglySorted time_le s ->
  forall r, In r (drop_duplicates_last s) ->
  forall r', In r' s -> user_id r' = user_id r -> time_le r' r.
Proof.
  induction s as [|x t IH]; simpl; intros Hs r Hr r' Hr' Eu; [contradiction|].
  inversion Hs as [|? ? Ht Hx]; subst.
  assert (Hin_t : In r (drop_duplicates_last t) -> time_le r' r).
  { intros Hrt. destruct Hr' as [<- | Hr'].
    - rewrite Forall_forall in Hx. apply Hx. now apply ddl_sub.
    - now apply (IH Ht r Hrt r'). }
  destruct (existsb (fun r' => same_key (user_id r') (user_id x)) t) eqn:E.
  - now apply Hin_t.
  - destruct Hr as [<- | Hr]; [|now apply Hin_t].
    destruct Hr' as [<- | Hr']; [apply time_le_refl|].
    assert (existsb (fun r'' => same_key (user_id r'') (user_id x)) t = true)
      by (apply existsb_exists; exists r'; split; [assumption | now apply same_key_spec]).
    congruence.
Qed.

Lemma ddl_nodup_id l : NoDup (map user_id l) -> drop_duplicates_last l = l.
Proof.
  induction l as [|x t IH]; simpl; intros Hn; [reflexivity|].
  inversion Hn as [|? ? Hnot Ht]; subst.
  destruct (existsb (fun r' => same_key (user_id r') (user_id x)) t) eqn:E.
  - exfalso. apply existsb_exists in E as [r' [Hr' E']]. apply same_key_spec in E'.
    apply Hnot. rewrite <- E'. now apply in_map.
  - f_equal. now apply IH.
Qed.

Section WithSort.
Variable sort_dated : list Row -> list Row.
Hypothesis sort_ok : is_sort_by_created_at sort_dated.

Lemma sort_values_perm df : Permutation df (sort_values sort_dated df).
Proof.
  unfold sort_values. eapply perm_trans; [apply (filter_partition_perm is_dated)|].
  apply Permutation_app_tail. apply sort_ok.
Qed.

Lemma sort_values_sorted df : StronglySorted time_le (sort_values sort_dated df).
Proof.
  unfold sort_values. apply StronglySorted_app.
  - apply Sorted_StronglySorted; [exact time_le_trans | apply sort_ok].
  - apply nat_rows_sorted. intros x Hx. apply filter_In in Hx as [_ Hx].
    unfold is_dated in Hx. destruct (created_at x); [discriminate | reflexivity].
  - intros a b _ Hb. apply filter_In in Hb as [_ Hb]. unfold time_le.
    unfold is_dated in Hb. destruct (created_at b); [discriminate|].
    destruct (created_at a); exact I.
Qed.

Lemma latest_sub grp df r :
  In r (latest_response sort_dated grp df) -> In r df /\ in_group grp r = true.
Proof.
  unfold latest_response. intros Hr. apply ddl_sub in Hr.
  apply (Permutation_in _ (Permutation_sym (sort_values_perm _))) in Hr.
  now apply filter_In in Hr.
Qed.


Lemma latest_max grp df r :
  In r (latest_response sort_dated grp df) ->
  forall r', In r' df -> in_group grp r' = true -> user_id r' = user_id r ->
  time_le r' r.
Proof.
  unfold latest_response. intros Hr r' Hr' Hg Eu.
  apply (ddl_max _ (sort_values_sorted _) r Hr r'); [|assumption].
  apply (Permutation_in _ (sort_values_perm _)). now apply filter_In.
Qed.
End WithSort.

Lemma filter_all_true {A} (f : A -> bool) l :
  (forall x, In x l -> f x = true) -> filter f l = l.
Proof.
  induction l as [|x t IH]; simpl; intros H; [reflexivity|].
  rewrite H by now left. f_equal. apply IH. intros y Hy. apply H. now right.
Qed.

Lemma merge_inner_users L R u :
  In u (map m_user_id (merge_inner L R)) <-> In u (map fst L) /\ In u (map fst R).
Proof.
  unfold merge_inner. rewrite in_map_iff. split.
  - intros [m [E Hm]]. apply in_flat_map in Hm as [l [Hl Hm]].
    apply in_map_iff in Hm as [r [Em Hr]]. apply filter_In in Hr as [Hr Er].
    apply same_key_spec in Er. subst m u. simpl. split.
    + now apply in_map.
    + rewrite <- Er. now apply in_map.
  - intros [HL HR]. apply in_map_iff in HL as [l [El Hl]].
    apply in_map_iff in HR as [r [Er Hr]].
    exists (mkMerged (fst l) (snd l) (snd r)). split; [simpl; assumption|].
    apply in_flat_map. exists l. split; [assumption|].
    apply in_map_iff. exists r. split; [reflexivity|].
    apply filter_In. split; [assumption|]. apply same_key_spec. congruence.
Qed.

Lemma merge_inner_values L R x :
  In x (merge_inner L R) ->
  In (m_user_id x, player_type x) L /\ In (m_user_id x, evacuate_choice x) R.
Proof.
  unfold merge_inner. intros Hm. apply in_flat_map in Hm as [l [Hl Hm]].
  apply in_map_iff in Hm as [r [Em Hr]]. apply filter_In in Hr as [Hr Er].
  apply same_key_spec in Er. subst x. simpl.
  destruct l as [lu la], r as [ru ra]. simpl in *. subst ru. now split.
Qed.

(** Case analysis on every [match] of a hypothesis, closing the branches
    whose two sides have different constructors. *)
Ltac split_matches H :=
  repeat match type of H with
  | context [match ?x with _ => _ end] => destruct x; try discriminate H
  end.

Lemma process_data_returned sort_dated parser input only_today today start_time end_time m :
  process_data sort_dated parser input only_today today start_time end_time = Returned m ->
  exists df, m = extract_and_merge sort_dated df.
Proof.
  intros H. unfold process_data, access_columns in H.
  split_matches H. injection H as <-. eauto.
Qed.

Lemma first_process_data_returned sort_dated to_dt input only_today today today_text m :
  first_process_data sort_dated to_dt input only_today today today_text = Returned m ->
  exists df, m = extract_and_merge sort_dated df.
Proof.
  intros H. unfold first_process_data, access_columns in H.
  split_matches H; injection H as <-; eauto.
Qed.

Lemma replace_petowner_ne a : replace_petowner a <> "Petowner"%string.
Proof.
  unfold replace_petowner. destruct (String.eqb a "Petowner") eqn:E; [discriminate|].
  apply String.eqb_neq in E. exact E.
Qed.

Lemma standardized_answer df r :
  In r (standardize_player_types df) -> answer r <> Some "Petowner"%string.
Proof.
  unfold standardize_player_types. intros Hr. apply in_map_iff in Hr as [s [<- _]].
  simpl. destruct (answer s) as [a|]; simpl; [|discriminate].
  intros E. injection E. apply replace_petowner_ne.
Qed.

Lemma extract_and_merge_normalized sort_dated (sort_ok : is_sort_by_created_at sort_dated) df x :
  In x (extract_and_merge sort_dated df) ->
  player_type x <> Some "Petowner"%string /\ evacuate_choice x <> Some "Petowner"%string.
Proof.
  unfold extract_and_merge. intros Hx. apply merge_inner_values in Hx as [H1 H2].
  unfold player_types, evac_choices in *.
  apply in_map_iff in H1 as [r1 [E1 Hr1]], H2 as [r2 [E2 Hr2]].
  apply (latest_sub _ sort_ok) in Hr1 as [Hr1 _], Hr2 as [Hr2 _].
  injection E1 as _ <-. injection E2 as _ <-.
  split; eapply standardized_answer; eassumption.
Qed.




(** C9.  Applying the extraction (group filter, sort by [created_at],
    keep-last per [user_id]) to its own output gives back the same rows: a
    permutation of the output, with the same single row for each user. *)
Theorem latest_response_idempotent :
  forall sort_dated, is_sort_by_created_at sort_dated ->
  forall grp df,
    let out := latest_response sort_dated grp df in
    Permutation (latest_response sort_dated grp out) out /\
    (forall u r, In r (latest_response sort_dated grp out) /\ user_id r = u <->
                 In r out /\ user_id r = u).
Proof.
  intros sort_dated Hs grp df out.
  assert (E : latest_response sort_dated grp out = sort_values sort_dated out).
  { unfold latest_response at 1.
    rewrite (filter_all_true _ out) by (intros x Hx; exact (proj2 (latest_sub _ Hs _ _ _ Hx))).
    apply ddl_nodup_id.
    apply (Permutation_NoDup (Permutation_map user_id (sort_values_perm _ Hs out))).
    apply ddl_nodup. }
  rewrite E. assert (P : Permutation (sort_values sort_dated out) out)
    by (apply Permutation_sym, (sort_values_perm _ Hs out)).
  split; [exact P|]. intros u r. split; intros [H1 H2]; split; try assumption.
  - exact (Permutation_in _ P H1).
  - exact (Permutation_in _ (Permutation_sym P) H1).
Qed.

(** C9 witness: the extraction of three rows, one without a timestamp,
    applied twice. *)
Lemma latest_response_idempotent_witness :
  Permutation
    (latest_response stable_sort ["evacuate_select"]%string
       (latest_response stable_sort ["evacuate_select"]%string
          [mkRow (Some "u1") (Some "evacuate_select") (Some "Yep, evacuate!") (Some 3);
           mkRow (Some "u1") (Some "evacuate_select") (Some "Heck no! dont evacuate") (Some 4);
           mkRow (Some "u2") (Some "evacuate_select") (Some "Yep, evacuate!") None]))
    (latest_response stable_sort ["evacuate_select"]%string
       [mkRow (Some "u1") (Some "evacuate_select") (Some "Yep, evacuate!") (Some 3);
        mkRow (Some "u1") (Some "evacuate_select") (Some "Heck no! dont evacuate") (Some 4);
        mkRow (Some "u2") (Some "evacuate_select") (Some "Yep, evacuate!") None]).
Proof.
  exact (proj1 (latest_response_idempotent stable_sort stable_sort_ok _ _)).
Defined.

(** C3.  The merged frame contains exactly the users present in both the
    player-type and the evacuation-choice extraction, and it is what
    [process_data] returns (of some normalised, time-filtered frame). *)
Theorem merged_users_in_both :
  (forall sort_dated df u,
     In u (map m_user_id (extract_and_merge sort_dated df)) <->
     In u (map fst (player_types sort_dated (standardize_player_types df))) /\
     In u (map fst (evac_choices sort_dated (standardize_player_types df)))) /\
  (forall sort_dated parser input only_today today start_time end_time m,
     process_data sort_dated parser input only_today today start_time end_time = Returned m ->
     exists df, m = extract_and_merge sort_dated df) /\
  (forall sort_dated to_dt input only_today today today_text m,
     first_process_data sort_dated to_dt input only_today today today_text = Returned m ->
     exists df, m = extract_and_merge sort_dated df).
Proof.
  split; [|split; [exact process_data_returned | exact first_process_data_returned]].
  intros sort_dated df u. unfold extract_and_merge. apply merge_inner_users.
Qed.

(** C3 witness: the spec's scenario, u1 answers both questions. *)
Lemma merged_users_in_both_witness :
  exists df,
    [mkMerged (Some "u1") (Some "Pet Owner") (Some "Yep, evacuate!")] =
      extract_and_merge stable_sort df.
Proof.
  destruct merged_users_in_both as [_ [H _]].
  apply (H stable_sort decimal_parser
    (Some (mkTable evacuate_required_cols
       [mkCsvRow (Some "u1") (Some "player_select") (Some "Pet Owner") (Some "1");
        mkCsvRow (Some "u1") (Some "evacuate_select") (Some "Yep, evacuate!") (Some "2")]))
    false 0 None None).
  vm_compute. reflexivity.
Defined.

(** C8 (amended).  In the evacuation scripts the ["Petowner"] ->
    ["Pet Owner"] replacement is applied to the answer column before the
    extractions: no merged row carries the label ["Petowner"], as player type
    or as evacuation choice. *)
Theorem normalized_before_grouping :
  forall sort_dated, is_sort_by_created_at sort_dated ->
  (forall parser input only_today today start_time end_time m,
     process_data sort_dated parser input only_today today start_time end_time = Returned m ->
     forall x, In x m ->
       player_type x <> Some "Petowner"%string /\
       evacuate_choice x <> Some "Petowner"%string) /\
  (forall to_dt input only_today today today_text m,
     first_process_data sort_dated to_dt input only_today today today_text = Returned m ->
     forall x, In x m ->
       player_type x <> Some "Petowner"%string /\
       evacuate_choice x <> Some "Petowner"%string).
Proof.
  intros sort_dated Hs. split.
  - intros parser input only_today today start_time end_time m Hm.
    destruct (process_data_returned _ _ _ _ _ _ _ _ Hm) as [df ->].
    now apply extract_and_merge_normalized.
  - intros to_dt input only_today today today_text m Hm.
    destruct (first_process_data_returned _ _ _ _ _ _ _ Hm) as [df ->].
    now apply extract_and_merge_normalized.
Qed.

(** C8 witness: an answer ["Petowner"] comes out as ["Pet Owner"]. *)
Lemma normalized_before_grouping_witness :
  player_type (mkMerged (Some "u1") (Some "Pet Owner") (Some "Yep, evacuate!"))
    <> Some "Petowner"%string /\
  evacuate_choice (mkMerged (Some "u1") (Some "Pet Owner") (Some "Yep, evacuate!"))
    <> Some "Petowner"%string.
Proof.
  apply (proj1 (normalized_before_grouping stable_sort stable_sort_ok) decimal_parser
    (Some (mkTable evacuate_required_cols
       [mkCsvRow (Some "u1") (Some "player_select") (Some "Petowner") (Some "1");
        mkCsvRow (Some "u1") (Some "evacuate_select") (Some "Yep, evacuate!") (Some "2")]))
    false 0 None None
    [mkMerged (Some "u1") (Some "Pet Owner") (Some "Yep, evacuate!")]).
  - vm_compute. reflexivity.
  - left. reflexivity.
Defined.

End EvacuateFacts.

(* ------------------------------------------------------------------------- *)
(** ** Facts across the scripts *)

Module Scripts.
Import Pandas.



Lemma has_col_false t c :
  ~ In c (Evacuate.columns t) -> Evacuate.has_col t c = false.
Proof.
  intros H. unfold Evacuate.has_col. destruct (existsb _ _) eqn:E; [|reflexivity].
  apply existsb_exists in E as [x [Hx Ex]]. apply String.eqb_eq in Ex. subst.
  contradiction.
Qed.

Lemma has_col_true t c :
  In c (Evacuate.columns t) -> Evacuate.has_col t c = true.
Proof.
  intros H. unfold Evacuate.has_col. apply existsb_exists.
  exists c. split; [assumption | apply String.eqb_refl].
Qed.

Lemma access_columns_missing sort_dated t df :
  Evacuate.has_col t "created_at" = true ->
  (exists c, In c Evacuate.evacuate_required_cols /\ ~ In c (Evacuate.columns t)) ->
  exists e, Evacuate.access_columns sort_dated t df = Evacuate.Raised e.
Proof.
  intros Hc [c [Hin Hn]]. apply has_col_false in Hn. unfold Evacuate.access_columns.
  simpl in Hin. destruct Hin as [<- | [<- | [<- | [<- | []]]]].
  - rewrite Hn. destruct (Evacuate.has_col t "answer"), (Evacuate.has_col t "step_name");
      simpl; eauto.
  - rewrite Hn. destruct (Evacuate.has_col t "answer"); simpl; eauto.
  - rewrite Hn. simpl. eauto.
  - congruence.
Qed.

Lemma access_columns_present sort_dated t df :
  (forall c, In c Evacuate.evacuate_required_cols -> In c (Evacuate.columns t)) ->
  Evacuate.access_columns sort_dated t df =
    Evacuate.Returned (Evacuate.extract_and_merge sort_dated df).
Proof.
  intros H. unfold Evacuate.access_columns.
  rewrite !has_col_true by (apply H; simpl; tauto). reflexivity.
Qed.

Lemma process_data_parsed sort_dated parser t only_today today start_time end_time ts st et :
  Evacuate.has_col t "created_at" = true ->
  Evacuate.parse_column parser (map Evacuate.csv_created_at (Evacuate.rows t)) = Some ts ->
  Evacuate.parse_bound parser start_time = Some st ->
  Evacuate.parse_bound parser end_time = Some et ->
  Evacuate.process_data sort_dated parser (Some t) only_today today start_time end_time =
    match Evacuate.time_filter only_today today st et
            (Evacuate.assign_created_at (Evacuate.rows t) ts) with
    | [] => Evacuate.Returned_none "Warning: No data found for the specified timeframe."%string
    | df => Evacuate.access_columns sort_dated t df
    end.
Proof.
  intros H1 H2 H3 H4. unfold Evacuate.process_data. rewrite H1, H2, H3, H4. reflexivity.
Qed.

Lemma first_process_data_parsed sort_dated to_dt t only_today today today_text ts :
  Evacuate.has_col t "created_at" = true ->
  to_dt (map Evacuate.csv_created_at (Evacuate.rows t)) = Some ts ->
  Evacuate.first_process_data sort_dated to_dt (Some t) only_today today today_text =
    if only_today then
      match filter (Evacuate.on_day today) (Evacuate.assign_created_at (Evacuate.rows t) ts) with
      | [] => Evacuate.Returned_none ("No responses found for today (" ++ today_text ++ ").")%string
      | df' => Evacuate.access_columns sort_dated t df'
      end
    else Evacuate.access_columns sort_dated t (Evacuate.assign_created_at (Evacuate.rows t) ts).
Proof.
  intros H1 H2. unfold Evacuate.first_process_data. rewrite H1, H2. reflexivity.
Qed.




(** C6 (corrected).  genetedatefilterprocess and geneteprocess check their
    required columns: when one is absent, the run writes one error line
    listing exactly the absent required columns and exits with status 1.
    The evacuation scripts have no check; a missing column raises KeyError
    (status 1) only when the code reaches its access.  processEvacuate:
    without [created_at] it always exits 1; with it, a parsed column and
    bounds, a missing [answer], [step_name] or [user_id] exits 1 when the
    time window keeps some row, and an empty window prints the warning and
    exits 0.  firstworkingprocessEvacuate: without [created_at] it exits 1;
    a missing other column exits 1 unless [--today] keeps no row, when it
    prints "No responses found for today (...)" and exits 0. *)
Theorem missing_columns_exit_1 :
  (forall c cols required,
     In c (Breakdown.missing_columns cols required) <-> In c required /\ ~ In c cols) /\
  (forall to_dt is_number t start_date,
     (exists c, In c Breakdown.required_cols /\ ~ In c (Breakdown.columns t)) ->
     Breakdown.process_and_output_percentages to_dt is_number (Some t) start_date =
       Breakdown.mkRun []
         [("Error: Missing expected columns: " ++
           String.concat ", " (Breakdown.missing_columns (Breakdown.columns t) Breakdown.required_cols) ++
           ". Please ensure 'hashed_user_id', 'question', 'answer', 'session_id', and 'created_at' columns exist.")%string] 1) /\
  (forall t,
     (exists c, In c Breakdown.drought_required_cols /\ ~ In c (Breakdown.columns t)) ->
     Breakdown.calculate_drought_answer_percentages (Some t) =
       Breakdown.mkRun []
         [("Error: Missing expected columns: " ++
           String.concat ", " (Breakdown.missing_columns (Breakdown.columns t) Breakdown.drought_required_cols) ++
           ". Please ensure 'hashed_user_id', 'question', and 'answer' columns exist.")%string] 1) /\
  (forall sort_dated parser t only_today today start_time end_time,
     Evacuate.has_col t "created_at" = false ->
     Evacuate.main sort_dated parser (Some t) only_today today start_time end_time =
       Evacuate.mkScriptRun [] ["KeyError: 'created_at'"%string] 1) /\
  (forall sort_dated parser t only_today today start_time end_time ts st et,
     Evacuate.has_col t "created_at" = true ->
     Evacuate.parse_column parser (map Evacuate.csv_created_at (Evacuate.rows t)) = Some ts ->
     Evacuate.parse_bound parser start_time = Some st ->
     Evacuate.parse_bound parser end_time = Some et ->
     (exists c, In c Evacuate.evacuate_required_cols /\ ~ In c (Evacuate.columns t)) ->
     (Evacuate.time_filter only_today today st et
        (Evacuate.assign_created_at (Evacuate.rows t) ts) <> [] ->
      Evacuate.status
        (Evacuate.main sort_dated parser (Some t) only_today today start_time end_time) = 1%Z) /\
     (Evacuate.time_filter only_today today st et
        (Evacuate.assign_created_at (Evacuate.rows t) ts) = [] ->
      Evacuate.main sort_dated parser (Some t) only_today today start_time end_time =
        Evacuate.mkScriptRun ["Warning: No data found for the specified timeframe."%string] [] 0)) /\
  (forall sort_dated to_dt t only_today today today_text,
     Evacuate.has_col t "created_at" = false ->
     Evacuate.first_main sort_dated to_dt (Some t) only_today today today_text =
       Evacuate.mkScriptRun [] ["KeyError: 'created_at'"%string] 1) /\
  (forall sort_dated to_dt t only_today today today_text ts,
     Evacuate.has_col t "created_at" = true ->
     to_dt (map Evacuate.csv_created_at (Evacuate.rows t)) = Some ts ->
     (exists c, In c Evacuate.evacuate_required_cols /\ ~ In c (Evacuate.columns t)) ->
     (only_today = false \/
      filter (Evacuate.on_day today) (Evacuate.assign_created_at (Evacuate.rows t) ts) <> [] ->
      Evacuate.status
        (Evacuate.first_main sort_dated to_dt (Some t) only_today today today_text) = 1%Z) /\
     (only_today = true ->
      filter (Evacuate.on_day today) (Evacuate.assign_created_at (Evacuate.rows t) ts) = [] ->
      Evacuate.first_main sort_dated to_dt (Some t) only_today today today_text =
        Evacuate.mkScriptRun [("No responses found for today (" ++ today_text ++ ").")%string] [] 0)).
Proof.
  split; [exact BreakdownFacts.missing_columns_spec|]. split; [|split; [|split; [|split; [|split]]]].
  - intros to_dt is_number t sd [c [H1 H2]]. apply BreakdownFacts.process_missing.
    exact (BreakdownFacts.missing_columns_nonempty _ _ _ H1 H2).
  - intros t [c [H1 H2]]. apply BreakdownFacts.drought_missing.
    exact (BreakdownFacts.missing_columns_nonempty _ _ _ H1 H2).
  - intros sort_dated parser t only_today today start_time end_time H.
    unfold Evacuate.main, Evacuate.process_data. rewrite H. reflexivity.
  - intros sort_dated parser t only_today today start_time end_time ts st et H1 H2 H3 H4 Hm.
    unfold Evacuate.main. rewrite (process_data_parsed _ _ _ _ _ _ _ _ _ _ H1 H2 H3 H4).
    split.
    + destruct (Evacuate.time_filter _ _ _ _ _) as [|r l]; [contradiction|]. intros _.
      destruct (access_columns_missing sort_dated t (r :: l) H1 Hm) as [e ->].
      reflexivity.
    + intros ->. reflexivity.
  - intros sort_dated to_dt t only_today today today_text H.
    unfold Evacuate.first_main, Evacuate.first_process_data. rewrite H. reflexivity.
  - intros sort_dated to_dt t only_today today today_text ts H1 H2 Hm.
    unfold Evacuate.first_main. rewrite (first_process_data_parsed _ _ _ _ _ _ _ H1 H2).
    split.
    + intros [-> | Hne].
      * destruct (access_columns_missing sort_dated t
                    (Evacuate.assign_created_at (Evacuate.rows t) ts) H1 Hm) as [e ->].
        reflexivity.
      * destruct only_today.
        -- destruct (filter _ _) as [|r l]; [contradiction|].
           destruct (access_columns_missing sort_dated t (r :: l) H1 Hm) as [e ->].
           reflexivity.
        -- destruct (access_columns_missing sort_dated t
                       (Evacuate.assign_created_at (Evacuate.rows t) ts) H1 Hm) as [e ->].
           reflexivity.
    + intros -> E. rewrite E. reflexivity.
Qed.

(** C6 witness: a frame without [session_id] and [created_at], one without
    [answer], and the two evacuation scripts on a frame with only
    [created_at] and no rows. *)
Lemma missing_columns_exit_1_witness :
  Breakdown.process_and_output_percentages (fun _ => None) Breakdown.decimal_number
    (Some (Breakdown.mkTable ["hashed_user_id"; "question"; "answer"]%string [] None)) None =
  Breakdown.mkRun [] ["Error: Missing expected columns: session_id, created_at. Please ensure 'hashed_user_id', 'question', 'answer', 'session_id', and 'created_at' columns exist."%string] 1 /\
  Breakdown.calculate_drought_answer_percentages
    (Some (Breakdown.mkTable ["hashed_user_id"; "question"]%string [] None)) =
  Breakdown.mkRun [] ["Error: Missing expected columns: answer. Please ensure 'hashed_user_id', 'question', and 'answer' columns exist."%string] 1 /\
  Evacuate.main Evacuate.stable_sort Evacuate.decimal_parser
    (Some (Evacuate.mkTable ["created_at"%string] [])) false 0%Z None None =
    Evacuate.mkScriptRun ["Warning: No data found for the specified timeframe."%string] [] 0 /\
  Evacuate.status
    (Evacuate.first_main Evacuate.stable_sort (Evacuate.parse_column Evacuate.decimal_parser)
       (Some (Evacuate.mkTable ["created_at"%string] [])) false 0%Z "2026-01-02"%string) = 1%Z.
Proof.
  destruct missing_columns_exit_1 as [_ [H2 [H3 [_ [H5 [_ H7]]]]]].
  assert (Hm : exists c, In c Evacuate.evacuate_required_cols /\
                 ~ In c (Evacuate.columns (Evacuate.mkTable ["created_at"%string] []))).
  { exists "answer"%string. split; [simpl; tauto|]. simpl. intuition discriminate. }
  split; [|split; [|split]].
  - rewrite H2; [reflexivity|]. exists "session_id"%string. split; [simpl; tauto|].
    simpl. intuition discriminate.
  - rewrite H3; [reflexivity|]. exists "answer"%string. split; [simpl; tauto|].
    simpl. intuition discriminate.
  - apply (H5 Evacuate.stable_sort Evacuate.decimal_parser
             (Evacuate.mkTable ["created_at"%string] []) false 0%Z None None [] None None
             eq_refl eq_refl eq_refl eq_refl Hm).
    reflexivity.
  - apply (H7 Evacuate.stable_sort (Evacuate.parse_column Evacuate.decimal_parser)
             (Evacuate.mkTable ["created_at"%string] []) false 0%Z "2026-01-02"%string []
             eq_refl eq_refl Hm).
    left. reflexivity.
Defined.

(** C6 counterexample.  processEvacuate has no required-column check: a
    table with only a [created_at] column and no rows ends with the
    "no data" warning and status 0. *)
Lemma missing_columns_exit_1_counterexample :
  ~ (forall t, (exists c, In c Evacuate.evacuate_required_cols /\ ~ In c (Evacuate.columns t)) ->
       Evacuate.status
         (Evacuate.main Evacuate.stable_sort Evacuate.decimal_parser (Some t) false 0%Z None None)
       = 1%Z).
Proof.
  intros H. specialize (H (Evacuate.mkTable ["created_at"%string] [])).
  assert (Hc : exists c, In c Evacuate.evacuate_required_cols /\
                 ~ In c (Evacuate.columns (Evacuate.mkTable ["created_at"%string] []))).
  { exists "user_id"%string. split; [simpl; tauto|]. simpl. intuition discriminate. }
  specialize (H Hc). vm_compute in H. discriminate H.
Qed.




(** C8 counterexample.  The stdin breakdown scripts do not normalise
    answers: ["Petowner"] and ["Pet Owner"] are reported as two categories. *)
Lemma normalized_before_grouping_counterexample :
  ~ (forall df prefix,
       ~ (In "Petowner"%string
            (map fst (Breakdown.calculate_aggregated_answer_percentages df prefix)) /\
          In "Pet Owner"%string
            (map fst (Breakdown.calculate_aggregated_answer_percentages df prefix)))).
Proof.
  intros H.
  apply (H [Breakdown.mkRow (Some "u1"%string) (Some "s1"%string) (Some "Now, who are you?"%string)
              (Some "Petowner"%string) (Some 1%Z);
            Breakdown.mkRow (Some "u2"%string) (Some "s2"%string) (Some "Now, who are you?"%string)
              (Some "Pet Owner"%string) (Some 2%Z)] "Now,"%string).
  vm_compute. split; tauto.
Qed.

End Scripts.

(* ------------------------------------------------------------------------- *)
(** ** Further properties of the breakdown scripts *)

Module BreakdownExtra.
Import Pandas PandasFacts Breakdown BreakdownFacts.
Local Open Scope string_scope.

Lemma pct_bounds (c T : nat) :
  (c <= T)%nat -> (0 < T)%nat -> 0 <= pct c T /\ pct c T <= 100.
Proof.
  intros Hle Hpos. unfold pct.
  assert (HT : 0 < inject_Z (Z.of_nat T)) by (unfold Qlt; simpl; lia).
  split.
  - apply Qmult_le_0_compat; [|unfold Qle; simpl; lia].
    apply Qle_shift_div_l; [assumption|]. rewrite Qmult_0_l. unfold Qle; simpl; lia.
  - rewrite <- (Qmult_1_l 100) at 2. apply Qmult_le_compat_r; [|unfold Qle; simpl; lia].
    apply Qle_shift_div_r; [assumption|]. rewrite Qmult_1_l. unfold Qle; simpl; lia.
Qed.

Lemma pct_pos (c T : nat) : (0 < c)%nat -> (c <= T)%nat -> 0 < pct c T.
Proof.
  intros Hc Hle. unfold pct.
  assert (HT : 0 < inject_Z (Z.of_nat T)) by (unfold Qlt; simpl; lia).
  apply Qmult_lt_0_compat; [|unfold Qlt; simpl; lia].
  apply Qlt_shift_div_l; [assumption|]. rewrite Qmult_0_l. unfold Qlt; simpl; lia.
Qed.

Lemma value_counts_keys l :
  NoDup (map fst (value_counts l)) /\
  (forall a, In a (map fst (value_counts l)) <-> In a (dropna l)).
Proof.
  unfold value_counts.
  destruct (group_sum_keys_nodup String.eqb string_eqb_spec
              (map (fun a => (a, 1%nat)) (dropna l))) as [H1 H2].
  pose proof (Permutation_map fst (isort_perm (fun x y => Nat.leb (snd y) (snd x))
                (group_sum String.eqb (map (fun a => (a, 1%nat)) (dropna l))))) as P.
  split; [exact (Permutation_NoDup P H1)|].
  intros a. split; intros H.
  - apply (Permutation_in _ (Permutation_sym P)) in H. apply H2 in H.
    rewrite map_map in H. simpl in H. now rewrite map_id in H.
  - apply (Permutation_in _ P). apply H2. rewrite map_map. simpl. now rewrite map_id.
Qed.

Lemma dropna_In a F :
  In a (dropna (map answer F)) <-> exists r, In r F /\ answer r = Some a.
Proof.
  unfold dropna. rewrite in_flat_map. split.
  - intros [o [Ho Ha]]. apply in_map_iff in Ho as [r [<- Hr]].
    destruct (answer r) eqn:E; simpl in Ha; [|contradiction].
    destruct Ha as [<- | []]. eauto.
  - intros [r [Hr Ha]]. exists (Some a). split; [apply in_map_iff; eauto | now left].
Qed.

Lemma count_answer_le a l : (count_answer a l <= List.length (answered_rows l))%nat.
Proof.
  unfold count_answer, answered_rows, has_answer.
  induction l as [|r t IH]; simpl; [lia|].
  destruct (answer r) as [s|]; simpl; [destruct (String.eqb s a); simpl; lia | lia].
Qed.

Lemma count_answer_pos a l :
  (exists r, In r l /\ answer r = Some a) -> (0 < count_answer a l)%nat.
Proof.
  intros [r [Hr Ha]]. unfold count_answer.
  assert (H : In r (filter (fun r => opt_eqb (answer r) (Some a)) l)).
  { apply filter_In. split; [assumption|]. rewrite Ha. simpl. apply String.eqb_refl. }
  destruct (filter _ l); [contradiction | simpl; lia].
Qed.

Lemma map_fst_isort_pct (VC : list (string * nat)) T before :
  Permutation (map fst (isort before (map (fun ac => (fst ac, pct (snd ac) T)) VC)))
              (map fst VC).
Proof.
  eapply Permutation_trans; [apply Permutation_sym, Permutation_map, isort_perm|].
  rewrite map_map. apply Permutation_refl'. apply map_ext. reflexivity.
Qed.

Lemma aggregated_keys df p :
  NoDup (map fst (calculate_aggregated_answer_percentages df p)) /\
  (forall a, In a (map fst (calculate_aggregated_answer_percentages df p)) <->
             exists r, In r (filter_questions df p) /\ answer r = Some a).
Proof.
  unfold calculate_aggregated_answer_percentages.
  destruct (filter_questions df p) as [|r0 t] eqn:Ef.
  - split; [constructor|]. intros a. simpl. split; [tauto|]. intros [r [[] _]].
  - rewrite <- Ef.
    destruct (value_counts_keys (map answer (filter_questions df p))) as [Hnd Hk].
    destruct (Nat.eqb _ 0) eqn:E0.
    + split; [constructor|]. intros a. simpl. split; [tauto|].
      intros [r [Hr Ha]]. apply Nat.eqb_eq in E0.
      rewrite value_counts_total, dropna_length in E0.
      apply length_zero_iff_nil in E0.
      assert (Hin : In r (answered_rows (filter_questions df p))).
      { apply filter_In. split; [assumption|]. unfold has_answer. now rewrite Ha. }
      rewrite E0 in Hin. contradiction.
    + pose proof (map_fst_isort_pct (value_counts (map answer (filter_questions df p)))
                    (sum_vals (value_counts (map answer (filter_questions df p))))
                    (fun x y => Qle_bool (snd y) (snd x))) as P.
      split; [exact (Permutation_NoDup (Permutation_sym P) Hnd)|].
      intros a. rewrite <- dropna_In, <- Hk. split; intros H.
      * exact (Permutation_in _ P H).
      * exact (Permutation_in _ (Permutation_sym P) H).
Qed.

Lemma aggregated_sorted df p :
  Sorted (fun x y => snd y <= snd x) (calculate_aggregated_answer_percentages df p).
Proof.
  unfold calculate_aggregated_answer_percentages.
  destruct (filter_questions df p); [constructor|].
  destruct (Nat.eqb _ 0); [constructor|].
  apply isort_sorted.
  - intros x y H. now apply Qle_bool_iff in H.
  - intros x y H. apply Qlt_le_weak, Qnot_le_lt. intros C.
    apply Qle_bool_iff in C. congruence.
Qed.

(** The global breakdown ([calculate_aggregated_answer_percentages]) lists
    each non-missing answer of the rows matching the prefix exactly once,
    and no other answer; its rows are in order of non-increasing percentage
    and every percentage lies in (0, 100]. *)
Theorem aggregated_answers_distinct_sorted df prefix :
  NoDup (map fst (calculate_aggregated_answer_percentages df prefix)) /\
  (forall a, In a (map fst (calculate_aggregated_answer_percentages df prefix)) <->
             exists r, In r (filter_questions df prefix) /\ answer r = Some a) /\
  Sorted (fun x y => snd y <= snd x) (calculate_aggregated_answer_percentages df prefix) /\
  (forall a q, In (a, q) (calculate_aggregated_answer_percentages df prefix) ->
               0 < q /\ q <= 100).
Proof.
  destruct (aggregated_keys df prefix) as [H1 H2].
  split; [exact H1|]. split; [exact H2|]. split; [apply aggregated_sorted|].
  intros a q H.
  pose proof (aggregated_value _ _ _ _ H) as Hq.
  assert (Hk : exists r, In r (filter_questions df prefix) /\ answer r = Some a)
    by (apply H2; exact (in_map fst _ _ H)).
  pose proof (count_answer_pos _ _ Hk) as Hpos.
  pose proof (count_answer_le a (filter_questions df prefix)) as Hle.
  rewrite Hq. split.
  - now apply pct_pos.
  - apply pct_bounds; [assumption | lia].
Qed.

Lemma filter_answer_is_2009_numeric l : filter (answer_is_2009 true) l = [].
Proof. induction l as [|r t IH]; simpl; [reflexivity | exact IH]. Qed.

Lemma filter_answer_is_2009_text l :
  filter (answer_is_2009 false) l = filter answer_text_is_2009 l.
Proof. reflexivity. Qed.

(** The second output of process_and_output_percentages: the line "No
    answers found for questions starting with 'First'." is never printed.
    With some row whose question starts with "First" it prints one
    percentage.  In a text answer column it is the number of such rows
    answered exactly "2009" over the number of such rows (rows with a
    missing answer count in the denominator), a value in [0, 100]; in a
    numeric answer column no cell equals the string "2009" and the
    percentage is 0. *)
Theorem first_2009_percentage :
  (forall numeric df,
     ~ In (Line "No answers found for questions starting with 'First'.")
          (second_output numeric df)) /\
  (forall df,
     filter_questions df "First" <> [] ->
     exists q,
       second_output false df =
         [Line "--- Overall Percentage of '2009' Answers for Questions Starting with 'First' ---";
          Pct_2009 q; Line ""] /\
       q == pct (List.length (filter answer_text_is_2009 (filter_questions df "First")))
                (List.length (filter_questions df "First")) /\
       0 <= q /\ q <= 100) /\
  (forall df,
     filter_questions df "First" <> [] ->
     exists q,
       second_output true df =
         [Line "--- Overall Percentage of '2009' Answers for Questions Starting with 'First' ---";
          Pct_2009 q; Line ""] /\
       q == 0).
Proof.
  split; [|split].
  - intros numeric df. unfold second_output.
    destruct (filter_questions df "First") as [|r t]; [simpl; intuition discriminate|].
    change (Nat.ltb 0 (List.length (r :: t))) with true. simpl. intuition discriminate.
  - intros df Hne. unfold second_output.
    destruct (filter_questions df "First") as [|r t] eqn:E; [contradiction|].
    change (Nat.ltb 0 (List.length (r :: t))) with true.
    eexists. split; [reflexivity|]. split; [reflexivity|].
    apply pct_bounds; [apply filter_length_le | simpl; lia].
  - intros df Hne. unfold second_output.
    destruct (filter_questions df "First") as [|r t] eqn:E; [contradiction|].
    change (Nat.ltb 0 (List.length (r :: t))) with true.
    eexists. split; [reflexivity|]. rewrite filter_answer_is_2009_numeric.
    unfold pct. simpl. reflexivity.
Qed.

(** First-question witness: one "2009" answer out of two "First" rows in a
    text column, and one "2009" cell in a numeric column. *)
Lemma first_2009_percentage_witness :
  (exists q,
    second_output false
      [mkRow (Some "u1") (Some "s1") (Some "First year?") (Some "2009") (Some 1%Z);
       mkRow (Some "u2") (Some "s2") (Some "First year?") None (Some 2%Z)] =
      [Line "--- Overall Percentage of '2009' Answers for Questions Starting with 'First' ---";
       Pct_2009 q; Line ""] /\
    q == pct 1 2 /\ 0 <= q /\ q <= 100) /\
  (exists q,
    second_output true
      [mkRow (Some "u1") (Some "s1") (Some "First year?") (Some "2009") (Some 1%Z)] =
      [Line "--- Overall Percentage of '2009' Answers for Questions Starting with 'First' ---";
       Pct_2009 q; Line ""] /\
    q == 0).
Proof.
  split.
  - apply (proj1 (proj2 first_2009_percentage)). discriminate.
  - apply (proj2 (proj2 first_2009_percentage)). discriminate.
Defined.





Lemma user_answer_counts_keys l :
  NoDup (map fst (user_answer_counts l)) /\
  (forall k, In k (map fst (user_answer_counts l)) <-> In k (groupby_user_answer l)).
Proof.
  unfold user_answer_counts.
  destruct (group_sum_keys_nodup pair_eqb pair_eqb_spec
              (map (fun k => (k, 1%nat)) (groupby_user_answer l))) as [H1 H2].
  pose proof (Permutation_map fst (isort_perm (fun x y => pair_leb (fst x) (fst y))
                (group_sum pair_eqb (map (fun k => (k, 1%nat)) (groupby_user_answer l))))) as P.
  split; [exact (Permutation_NoDup P H1)|].
  intros k. split; intros H.
  - apply (Permutation_in _ (Permutation_sym P)) in H. apply H2 in H.
    rewrite map_map in H. simpl in H. now rewrite map_id in H.
  - apply (Permutation_in _ P). apply H2. rewrite map_map. simpl. now rewrite map_id.
Qed.

Lemma drought_keys_perm l :
  Permutation (map fst (drought_breakdown l)) (map fst (user_answer_counts l)).
Proof.
  eapply Permutation_trans; [apply Permutation_map, drought_breakdown_perm|].
  rewrite map_map. apply Permutation_refl'. apply map_ext. reflexivity.
Qed.

Lemma count_user_answer_le u a l :
  (count_user_answer u a l <= count_user_answered u l)%nat.
Proof.
  unfold count_user_answer, count_user_answered, has_answer.
  induction l as [|r t IH]; simpl; [lia|].
  destruct (opt_eqb (hashed_user_id r) (Some u)); simpl; [|lia].
  destruct (answer r) as [s|]; simpl; [destruct (String.eqb s a); simpl; lia | lia].
Qed.

Lemma count_user_answer_pos u a l :
  In (u, a) (groupby_user_answer l) -> (0 < count_user_answer u a l)%nat.
Proof.
  intros H. rewrite <- keys_count_pair.
  assert (Hf : In (u, a) (filter (fun k' => pair_eqb k' (u, a)) (groupby_user_answer l)))
    by (apply filter_In; split; [assumption | now apply pair_eqb_spec]).
  destruct (filter _ _); [contradiction | simpl; lia].
Qed.

Lemma ltb_total u v :
  String.ltb u v = false -> String.eqb u v = false -> String.ltb v u = true.
Proof.
  unfold String.ltb. intros H1 H2. rewrite (String.compare_antisym u v) in H1.
  destruct (String.compare v u) eqn:C; simpl in H1; try discriminate; [|reflexivity].
  apply String.compare_eq_iff in C. subst. now rewrite String.eqb_refl in H2.
Qed.

(** The per-user breakdown of geneteprocess has one row per
    [(hashed_user_id, answer)] pair; its rows are ordered by user (ascending)
    and, within a user, by non-increasing percentage; every percentage lies
    in (0, 100]. *)
Theorem drought_rows_sorted_distinct l :
  NoDup (map fst (drought_breakdown l)) /\
  Sorted (fun x y : string * string * Q =>
            String.ltb (fst (fst x)) (fst (fst y)) = true \/
            (fst (fst x) = fst (fst y) /\ snd y <= snd x))
         (drought_breakdown l) /\
  (forall u a q, In (u, a, q) (drought_breakdown l) -> 0 < q /\ q <= 100).
Proof.
  destruct (user_answer_counts_keys l) as [Hnd Hk].
  split; [exact (Permutation_NoDup (Permutation_sym (drought_keys_perm l)) Hnd)|].
  split.
  - unfold drought_breakdown. apply isort_sorted.
    + intros [[ux ax] px] [[uy ay] py] H. simpl in *.
      apply orb_true_iff in H as [H|H]; [now left|].
      apply andb_true_iff in H as [H1 H2]. right.
      split; [now apply String.eqb_eq | now apply Qle_bool_iff].
    + intros [[ux ax] px] [[uy ay] py] H. simpl in *.
      apply orb_false_iff in H as [H1 H2].
      destruct (String.eqb ux uy) eqn:E.
      * apply String.eqb_eq in E. subst uy. right. split; [reflexivity|].
        apply Qlt_le_weak, Qnot_le_lt. intros C. apply Qle_bool_iff in C.
        simpl in H2. congruence.
      * left. now apply ltb_total.
  - intros u a q H.
    pose proof (drought_value _ _ _ _ H) as Hq.
    assert (Hg : In (u, a) (groupby_user_answer l)).
    { apply Hk. apply (Permutation_in _ (drought_keys_perm l)).
      exact (in_map fst _ _ H). }
    pose proof (count_user_answer_pos _ _ _ Hg) as Hpos.
    pose proof (count_user_answer_le u a l) as Hle.
    rewrite Hq. split; [now apply pct_pos | apply pct_bounds; [assumption | lia]].
Qed.

Lemma groupby_nil_iff l :
  groupby_user_answer l = [] <->
  forall r, In r l -> hashed_user_id r = None \/ answer r = None.
Proof.
  induction l as [|r t IH]; simpl; [split; [tauto | reflexivity]|].
  destruct r as [[u|] si qu [a|] ca]; simpl.
  - split; [discriminate|]. intros H. destruct (H _ (or_introl eq_refl)) as [E|E]; discriminate.
  - rewrite IH. split; [intros H r [<-|Hr]; [now right | now apply H] | intros H r Hr; apply H; now right].
  - rewrite IH. split; [intros H r [<-|Hr]; [now left | now apply H] | intros H r Hr; apply H; now right].
  - rewrite IH. split; [intros H r [<-|Hr]; [now left | now apply H] | intros H r Hr; apply H; now right].
Qed.

(** The per-user breakdown is empty exactly when no row has both a
    [hashed_user_id] and an answer; geneteprocess then prints a CSV with its
    header only and exits 0. *)
Theorem drought_empty_iff :
  (forall l, drought_breakdown l = [] <->
             forall r, In r l -> hashed_user_id r = None \/ answer r = None) /\
  (forall t,
     missing_columns (columns t) drought_required_cols = [] ->
     filter_questions (rows t) "Now," <> [] ->
     (forall r, In r (filter_questions (rows t) "Now,") ->
                hashed_user_id r = None \/ answer r = None) ->
     calculate_drought_answer_percentages (Some t) =
       mkRun [Csv_user_answer_pct []] [] 0).
Proof.
  assert (Hiff : forall l, drought_breakdown l = [] <->
             forall r, In r l -> hashed_user_id r = None \/ answer r = None).
  { intros l. rewrite <- groupby_nil_iff. split.
    - intros H. destruct (groupby_user_answer l) as [|k t] eqn:E; [reflexivity|].
      exfalso. destruct (user_answer_counts_keys l) as [_ Hk].
      assert (Hin : In k (map fst (drought_breakdown l))).
      { apply (Permutation_in _ (Permutation_sym (drought_keys_perm l))).
        apply Hk. rewrite E. now left. }
      rewrite H in Hin. contradiction.
    - intros H. pose proof (drought_breakdown_perm l) as P.
      unfold user_answer_counts in P. rewrite H in P. simpl in P.
      now apply Permutation_nil. }
  split; [exact Hiff|].
  intros t Hm Hne H. unfold calculate_drought_answer_percentages. rewrite Hm.
  destruct (filter_questions (rows t) "Now,") as [|r l] eqn:E; [contradiction|].
  rewrite (proj2 (Hiff _) H). reflexivity.
Qed.

(** Per-user empty witness: one matching row without a user id. *)
Lemma drought_empty_iff_witness :
  calculate_drought_answer_percentages
    (Some (mkTable drought_required_cols
       [mkRow None (Some "s1") (Some "Now, drought?") (Some "Yes") (Some 1%Z)] None)) =
  mkRun [Csv_user_answer_pct []] [] 0.
Proof.
  apply (proj2 drought_empty_iff).
  - reflexivity.
  - vm_compute. discriminate.
  - intros r Hr. vm_compute in Hr. destruct Hr as [<- | []]. now left.
Defined.

(** In the third output of a text answer column, [isin] matches a missing
    [session_id] with a missing one: when some "First" row answered "2009"
    has no session id, every row without a session id belongs to the
    filtered population. *)
Theorem missing_session_ids_match numeric df :
  numeric = false ->
  (exists r0, In r0 df /\ startswith "First" (question r0) = true /\
              answer r0 = Some "2009" /\ session_id r0 = None) ->
  forall r, session_id r = None ->
            isin (session_id r) (sessions_with_2009_answer numeric df) = true.
Proof.
  intros Hn H r Hr. unfold isin. apply existsb_opt_eqb. rewrite Hr.
  apply sessions_spec. split; [exact Hn | exact H].
Qed.

(** Missing-session witness. *)
Lemma missing_session_ids_match_witness :
  isin None
    (sessions_with_2009_answer false
       [mkRow (Some "u1") None (Some "First year?") (Some "2009") (Some 1%Z)]) = true.
Proof.
  apply (missing_session_ids_match false
           [mkRow (Some "u1") None (Some "First year?") (Some "2009") (Some 1%Z)])
    with (r := mkRow (Some "u2") None (Some "Now, go?") (Some "Yes") (Some 2%Z));
    [reflexivity | | reflexivity].
  exists (mkRow (Some "u1") None (Some "First year?") (Some "2009") (Some 1%Z)).
  split; [now left|]. split; [reflexivity|]. split; reflexivity.
Defined.

End BreakdownExtra.


(** * Evacuation scripts: further properties of the code *)

Module EvacuateExtra.
Import Pandas PandasFacts Evacuate EvacuateFacts.
Local Open Scope string_scope.
Local Open Scope Z_scope.

(** A CSV row with every cell filled. *)
Definition csv_row (u s a c : string) : CsvRow := mkCsvRow (Some u) (Some s) (Some a) (Some c).

(** Sample rows of NokiEvacuateOutput.csv, [created_at] in nanoseconds. *)
Definition sample_csv : list CsvRow :=
  [csv_row "u1" "player_select" "Petowner" "5";
   csv_row "u1" "evacuate_select" "Heck no! dont evacuate" "6";
   csv_row "u1" "evacuate_select" "Yep, evacuate!" "9";
   csv_row "u2" "playerselect" "Farmer" "7"].

Definition sample_table : Table := mkTable evacuate_required_cols sample_csv.

(** The same rows once [created_at] is parsed. *)
Definition sample_rows : list Row :=
  [mkRow (Some "u1") (Some "player_select") (Some "Petowner") (Some 5);
   mkRow (Some "u1") (Some "evacuate_select") (Some "Heck no! dont evacuate") (Some 6);
   mkRow (Some "u1") (Some "evacuate_select") (Some "Yep, evacuate!") (Some 9);
   mkRow (Some "u2") (Some "playerselect") (Some "Farmer") (Some 7)].

(** A sample merged frame. *)
Definition sample_merged : list Merged :=
  [mkMerged (Some "u1") (Some "Pet Owner") (Some "Yep, evacuate!");
   mkMerged (Some "u2") (Some "Farmer") (Some "Yep, evacuate!");
   mkMerged (Some "u3") (Some "Farmer") (Some "Heck no! dont evacuate")].

Lemma filter_none_true {A} (f : A -> bool) l :
  (forall x, In x l -> f x = false) -> filter f l = [].
Proof.
  induction l as [|x t IH]; simpl; intros H; [reflexivity|].
  rewrite H by now left. apply IH. intros y Hy. apply H. now right.
Qed.

Lemma filter_key_at_most_one (R : list (option string * option string)) k :
  NoDup (map fst R) ->
  (List.length (filter (fun r => same_key (fst r) k) R) <= 1)%nat.
Proof.
  induction R as [|x t IH]; simpl; intros Hn; [lia|].
  inversion Hn as [|? ? Hx Ht]; subst.
  destruct (same_key (fst x) k) eqn:E; simpl; [|now apply IH].
  apply same_key_spec in E. subst k.
  rewrite filter_none_true; [simpl; lia|].
  intros y Hy. destruct (same_key (fst y) (fst x)) eqn:Ey; [|reflexivity].
  apply same_key_spec in Ey. exfalso. apply Hx. rewrite <- Ey. now apply in_map.
Qed.

Lemma nodup_short {A} (l : list A) : (List.length l <= 1)%nat -> NoDup l.
Proof.
  destruct l as [|x [|y t]]; simpl; intros H; [constructor | |lia].
  constructor; [simpl; tauto | constructor].
Qed.

Lemma merge_inner_nodup L R :
  NoDup (map fst L) -> NoDup (map fst R) -> NoDup (map m_user_id (merge_inner L R)).
Proof.
  intros HL HR. induction L as [|l L IH]; simpl; [constructor|].
  inversion HL as [|? ? Hl HL']; subst.
  change (flat_map _ L) with (merge_inner L R).
  rewrite map_app. apply NoDup_app.
  - rewrite map_map. simpl. apply nodup_short.
    rewrite length_map. now apply filter_key_at_most_one.
  - now apply IH.
  - intros u Hu Hu'. rewrite map_map in Hu. simpl in Hu.
    apply in_map_iff in Hu as [r [Er _]]. subst u.
    apply merge_inner_users in Hu' as [Hu' _]. contradiction.
Qed.

Lemma player_types_keys sort_dated df :
  NoDup (map fst (player_types sort_dated df)).
Proof. unfold player_types. rewrite map_map. apply ddl_nodup. Qed.

Lemma evac_choices_keys sort_dated df :
  NoDup (map fst (evac_choices sort_dated df)).
Proof. unfold evac_choices. rewrite map_map. apply ddl_nodup. Qed.

Lemma extract_and_merge_nodup sort_dated df :
  NoDup (map m_user_id (extract_and_merge sort_dated df)).
Proof.
  unfold extract_and_merge. apply merge_inner_nodup;
    [apply player_types_keys | apply evac_choices_keys].
Qed.

Lemma time_le_cases a b :
  time_le a b ->
  (forall c' c, created_at a = Some c' -> created_at b = Some c -> c' <= c) /\
  (created_at a = None -> created_at b = None).
Proof.
  intros H. unfold time_le in H. split.
  - intros c' c E1 E2. rewrite E1, E2 in H. exact H.
  - intros E. rewrite E in H. destruct (created_at b); [contradiction | reflexivity].
Qed.

Lemma latest_of_standardized sort_dated (sort_ok : is_sort_by_created_at sort_dated)
    grp df u a :
  In (u, a) (map (fun r => (user_id r, answer r))
                 (latest_response sort_dated grp (standardize_player_types df))) ->
  exists r, In r df /\ in_group grp r = true /\ user_id r = u /\
            a = option_map replace_petowner (answer r) /\
            forall r', In r' df -> in_group grp r' = true -> user_id r' = u ->
                       time_le r' r.
Proof.
  intros H. apply in_map_iff in H as [s [Es Hs]]. injection Es as Eu Ea.
  pose proof (latest_sub sort_dated sort_ok grp _ s Hs) as [Hin Hg].
  unfold standardize_player_types in Hin. apply in_map_iff in Hin as [r [Er Hr]].
  subst s. simpl in *. exists r. repeat split; try assumption.
  - congruence.
  - intros r' Hr' Hg' Eu'.
    assert (Hin' : In (mkRow (user_id r') (step_name r')
                             (option_map replace_petowner (answer r')) (created_at r'))
                      (standardize_player_types df))
      by (apply in_map_iff; now exists r').
    pose proof (latest_max sort_dated sort_ok grp _ _ Hs _ Hin' Hg' ltac:(simpl; congruence))
      as Ht.
    unfold time_le in *. simpl in Ht. exact Ht.
Qed.

Lemma parse_bound_some parser s st :
  s <> "" -> parse_scalar parser s = Some st -> parse_bound parser (Some s) = Some (Some st).
Proof.
  intros Hs H. unfold parse_bound. apply String.eqb_neq in Hs. now rewrite Hs, H.
Qed.

Lemma time_filter_reversed only_today today s e l :
  e < s -> time_filter only_today today (Some s) (Some e) l = [].
Proof.
  intros Hes. unfold time_filter.
  generalize (if only_today then filter (on_day today) l else l) as l1.
  induction l1 as [|r t IH]; simpl; [reflexivity|].
  destruct (created_at r) as [c|] eqn:Ec; simpl; [|exact IH].
  destruct (Z.leb s c) eqn:E1; simpl; [|exact IH]. rewrite Ec.
  destruct (Z.leb c e) eqn:E2; simpl; [|exact IH].
  apply Z.leb_le in E1, E2. lia.
Qed.

Lemma date_of_iff D c :
  date_of c = D <-> D * ns_per_day <= c <= D * ns_per_day + ns_per_day - 1.
Proof.
  unfold date_of, ns_per_day, ns_per_second.
  pose proof (Z.div_mod c (86400 * 1000000000) ltac:(lia)) as Hd.
  pose proof (Z.mod_pos_bound c (86400 * 1000000000) ltac:(lia)) as Hm.
  split.
  - intros <-. lia.
  - intros Hc. lia.
Qed.

(** ** The labels of the figures *)

Lemma length_pos_of_In {A} (x : A) l : In x l -> (0 < List.length l)%nat.
Proof. destruct l; simpl; [contradiction | lia]. Qed.

Lemma existsb_eqb_In x l : existsb (String.eqb x) l = true <-> In x l.
Proof.
  rewrite existsb_exists. split.
  - intros [y [Hy E]]. apply String.eqb_eq in E. now subst.
  - intros H. exists x. split; [assumption | apply String.eqb_refl].
Qed.

Lemma filter_or_length {A} (a b : A -> bool) l :
  (forall x, In x l -> a x && b x = false) ->
  List.length (filter (fun x => a x || b x) l) =
  (List.length (filter a l) + List.length (filter b l))%nat.
Proof.
  induction l as [|x t IH]; simpl; intros H; [reflexivity|].
  pose proof (H x (or_introl eq_refl)) as Hx.
  assert (Ht : forall y, In y t -> a y && b y = false) by (intros; apply H; now right).
  destruct (a x), (b x); simpl in *; try discriminate; rewrite IH by exact Ht; lia.
Qed.

(** Summing the counts of distinct columns counts the items that fall in one
    of them, when no item falls in two. *)
Lemma count_cols_sum {A} (p : A -> string -> bool) l cols :
  NoDup cols ->
  (forall x c c', p x c = true -> p x c' = true -> c = c') ->
  fold_right Nat.add 0%nat (map (fun c => List.length (filter (fun x => p x c) l)) cols) =
  List.length (filter (fun x => existsb (p x) cols) l).
Proof.
  intros Hn Hp. induction cols as [|c cs IH]; simpl.
  - rewrite filter_none_true; [reflexivity|]. intros x _. reflexivity.
  - inversion Hn as [|? ? Hc Hcs]; subst. rewrite IH by exact Hcs.
    rewrite <- filter_or_length; [reflexivity|].
    intros x _. cbv beta. destruct (p x c) eqn:E1; simpl; [|reflexivity].
    apply not_true_iff_false. intros E2. apply existsb_exists in E2 as [c' [Hc' E2]].
    rewrite (Hp x c c' E1 E2) in Hc. contradiction.
Qed.

Lemma existsb_andb_l (b : bool) (f : string -> bool) l :
  existsb (fun c => b && f c) l = b && existsb f l.
Proof. destruct b; simpl; [reflexivity | induction l; simpl; auto]. Qed.

(** The counts of one row of the cross table add up to the groups of that
    player type whose choice is a column. *)
Lemma count_cols_sum_pair (pt : string) (ks : list (string * string)) cols :
  NoDup cols ->
  fold_right Nat.add 0%nat
    (map (fun c => List.length (filter (fun k => String.eqb (fst k) pt &&
                                                 String.eqb (snd k) c) ks)) cols) =
  List.length (filter (fun k => String.eqb (fst k) pt && existsb (String.eqb (snd k)) cols) ks).
Proof.
  intros Hn.
  rewrite (count_cols_sum (fun k c => String.eqb (fst k) pt && String.eqb (snd k) c) ks cols Hn).
  - f_equal. apply filter_ext. intros k. apply existsb_andb_l.
  - intros k c c' E1 E2. apply andb_true_iff in E1 as [_ E1].
    apply andb_true_iff in E2 as [_ E2].
    apply String.eqb_eq in E1, E2. congruence.
Qed.

Lemma unique_labels_In seen l x :
  In x (unique_from seen l) <-> In x l /\ ~ In x seen.
Proof.
  revert seen. induction l as [|a t IH]; simpl; intros seen; [tauto|].
  destruct (existsb (String.eqb a) seen) eqn:E.
  - apply existsb_eqb_In in E. rewrite IH. split; [tauto|].
    intros [[<- | H1] H2]; [contradiction | tauto].
  - simpl. rewrite IH. simpl.
    assert (~ In a seen) by (rewrite <- existsb_eqb_In; congruence).
    split.
    + intros [<- | [H1 H2]]; [tauto|]. split; [now right | tauto].
    + intros [[<- | H1] H2]; [now left|].
      destruct (String.eqb_spec a x) as [<-|Ne]; [now left|].
      right. split; [assumption|]. intros [E'|E']; [congruence | contradiction].
Qed.

Lemma unique_labels_nodup seen l : NoDup (unique_from seen l).
Proof.
  revert seen. induction l as [|a t IH]; simpl; intros seen; [constructor|].
  destruct (existsb (String.eqb a) seen); [apply IH|].
  constructor; [|apply IH]. rewrite unique_labels_In. simpl. tauto.
Qed.

Lemma sorted_labels_In l x : In x (sorted_labels l) <-> In x l.
Proof.
  unfold sorted_labels, unique. split; intros H.
  - apply (Permutation_in _ (Permutation_sym (isort_perm _ _))) in H.
    now apply unique_labels_In in H.
  - apply (Permutation_in _ (isort_perm _ _)). apply unique_labels_In. simpl. tauto.
Qed.

Lemma sorted_labels_nodup l : NoDup (sorted_labels l).
Proof.
  unfold sorted_labels, unique.
  apply (Permutation_NoDup (isort_perm _ _)). apply unique_labels_nodup.
Qed.

Lemma enumerate_In {A} (d : A) k l i x :
  In (i, x) (enumerate k l) <-> (k <= i < k + List.length l)%nat /\ nth (i - k) l d = x.
Proof.
  revert k. induction l as [|a t IH]; simpl; intros k; [split; [tauto | lia]|].
  rewrite IH. split.
  - intros [E | [Hi Hn]].
    + injection E as <- <-. rewrite Nat.sub_diag. split; [lia | reflexivity].
    + split; [lia|]. replace (i - k)%nat with (S (i - S k)) by lia. exact Hn.
  - intros [Hi Hn]. destruct (Nat.eq_dec i k) as [->|Ne].
    + left. rewrite Nat.sub_diag in Hn. now subst.
    + right. split; [lia|]. replace (i - k)%nat with (S (i - S k)) in Hn by lia.
      exact Hn.
Qed.

Lemma patches_gen_length (g : list (list nat)) js :
  List.length (flat_map (fun j => map (fun row => nth j row 0%nat) g) js) =
  (List.length js * List.length g)%nat.
Proof.
  induction js as [|j js IH]; simpl; [reflexivity|].
  rewrite length_app, length_map, IH. lia.
Qed.

Lemma patches_gen_nth (g : list (list nat)) js j r :
  (r < List.length g)%nat -> (j < List.length js)%nat ->
  nth (j * List.length g + r)
      (flat_map (fun j => map (fun row => nth j row 0%nat) g) js) 0%nat =
  nth (nth j js 0%nat) (nth r g []) 0%nat.
Proof.
  revert j. induction js as [|a js IH]; intros j Hr Hj; simpl in Hj; [lia|].
  cbn [flat_map]. destruct j as [|j].
  - rewrite app_nth1 by (rewrite length_map; lia).
    rewrite (nth_indep _ 0%nat ((fun row => nth a row 0%nat) []))
      by (rewrite length_map; lia).
    exact (map_nth (fun row => nth a row 0%nat) g [] _).
  - rewrite app_nth2 by (rewrite length_map; lia). rewrite length_map.
    replace (S j * List.length g + r - List.length g)%nat
      with (j * List.length g + r)%nat by lia.
    rewrite IH by lia. reflexivity.
Qed.

Lemma patches_length g ncols :
  List.length (patches g ncols) = (ncols * List.length g)%nat.
Proof. unfold patches. rewrite patches_gen_length, length_seq. reflexivity. Qed.

Lemma patches_nth g ncols j r :
  (r < List.length g)%nat -> (j < ncols)%nat ->
  nth (j * List.length g + r) (patches g ncols) 0%nat = nth j (nth r g []) 0%nat.
Proof.
  intros Hr Hj. unfold patches. rewrite patches_gen_nth by (rewrite ?length_seq; lia).
  rewrite seq_nth by lia. reflexivity.
Qed.

Lemma nth_le_sum (row : list nat) j : (nth j row 0 <= fold_right Nat.add 0 row)%nat.
Proof.
  revert j. induction row as [|a t IH]; intros [|j]; simpl; try lia.
  specialize (IH j). lia.
Qed.

Lemma row_totals_nth g r :
  nth r (row_totals g) 0%nat = fold_right Nat.add 0%nat (nth r g []).
Proof.
  revert r. induction g as [|row g IH]; intros [|r]; simpl; try reflexivity.
  apply IH.
Qed.

(** A bar label is the count of a positive cell [(r, j)] of the table and
    its share of row [r]'s total. *)
Lemma bar_labels_cells g ncols i c p :
  In (i, c, p) (bar_labels g ncols) <->
  exists r j, (r < List.length g)%nat /\ (j < ncols)%nat /\
    i = (j * List.length g + r)%nat /\ c = nth j (nth r g []) 0%nat /\ (0 < c)%nat /\
    p = pct c (fold_right Nat.add 0%nat (nth r g [])).
Proof.
  unfold bar_labels. rewrite in_flat_map. split.
  - intros [[i' h] [Hin Hl]]. apply (enumerate_In 0%nat) in Hin as [Hi Hh].
    rewrite Nat.sub_0_r in Hh. rewrite patches_length in Hi. cbn [fst snd] in Hl.
    set (n := List.length g) in *.
    assert (Hn : n <> 0%nat) by (intros E; rewrite E in Hi; lia).
    pose proof (Nat.div_mod_eq i' n) as Hdm.
    pose proof (Nat.mod_upper_bound i' n Hn) as Hr.
    assert (Hj : (i' / n < ncols)%nat) by (apply Nat.Div0.div_lt_upper_bound; lia).
    assert (Hh' : h = nth (i' / n) (nth (i' mod n) g []) 0%nat).
    { rewrite <- Hh. rewrite <- (patches_nth g ncols) by assumption.
      f_equal. fold n. lia. }
    rewrite row_totals_nth in Hl.
    pose proof (nth_le_sum (nth (i' mod n) g []) (i' / n)) as Hle.
    destruct (Nat.ltb_spec 0 h) as [Hh0|]; [|contradiction].
    destruct (Nat.ltb_spec 0 (fold_right Nat.add 0%nat (nth (i' mod n) g []))); [|lia].
    destruct Hl as [E|[]]. injection E as <- <- <-.
    exists (i' mod n)%nat, (i' / n)%nat. repeat split; try assumption; lia.
  - intros [r [j [Hr [Hj [-> [-> [Hc ->]]]]]]].
    set (n := List.length g) in *.
    assert (Hn : n <> 0%nat) by lia.
    exists (j * n + r, nth j (nth r g []) 0%nat)%nat. split.
    + apply (enumerate_In 0%nat). rewrite patches_length, Nat.sub_0_r. split; [nia|].
      now apply patches_nth.
    + cbn [fst snd].
      replace ((j * n + r) mod n)%nat with r
        by (rewrite Nat.add_comm, Nat.Div0.mod_add, Nat.mod_small by lia; reflexivity).
      replace ((j * n + r) / n)%nat with j
        by (rewrite Nat.div_add_l, Nat.div_small by lia; lia).
      rewrite row_totals_nth.
      pose proof (nth_le_sum (nth r g []) j) as Hle.
      destruct (Nat.ltb_spec 0 (nth j (nth r g []) 0%nat)); [|lia].
      destruct (Nat.ltb_spec 0 (fold_right Nat.add 0%nat (nth r g []))); [|lia].
      now left.
Qed.

Lemma crosstab_length cols m :
  List.length (crosstab cols m) = List.length (sorted_labels (map fst (groupby_keys m))).
Proof. unfold crosstab. apply length_map. Qed.

Lemma crosstab_nth cols m r :
  (r < List.length (sorted_labels (map fst (groupby_keys m))))%nat ->
  nth r (crosstab cols m) [] =
  map (fun c => List.length
                  (filter (fun k => String.eqb (fst k)
                                      (nth r (sorted_labels (map fst (groupby_keys m))) "") &&
                                    String.eqb (snd k) c) (groupby_keys m))) cols.
Proof.
  intros Hr. unfold crosstab. cbv zeta.
  set (F := fun pt => map (fun c => List.length
                         (filter (fun k => String.eqb (fst k) pt &&
                                           String.eqb (snd k) c) (groupby_keys m))) cols).
  transitivity (nth r (map F (sorted_labels (map fst (groupby_keys m)))) (F "")).
  - apply nth_indep. now rewrite length_map.
  - apply map_nth.
Qed.

Lemma nth_map_cols (f : string -> nat) cols j :
  (j < List.length cols)%nat -> nth j (map f cols) 0%nat = f (nth j cols "").
Proof.
  intros Hj. transitivity (nth j (map f cols) (f "")).
  - apply nth_indep. now rewrite length_map.
  - apply map_nth.
Qed.

(** Plot 3 on [grouped] with distinct columns [cols]: a label is the number of
    groupby keys (merged rows with both values non-NaN) of the [r]-th player
    type with the [j]-th choice, and its share of the keys of that type whose
    choice is a column. *)
Lemma crosstab_labels cols m i c p :
  NoDup cols ->
  In (i, c, p) (bar_labels (crosstab cols m) (List.length cols)) <->
  exists r j, (r < List.length (sorted_labels (map fst (groupby_keys m))))%nat /\
    (j < List.length cols)%nat /\
    i = (j * List.length (sorted_labels (map fst (groupby_keys m))) + r)%nat /\
    c = List.length
          (filter (fun k => String.eqb (fst k)
                              (nth r (sorted_labels (map fst (groupby_keys m))) "") &&
                            String.eqb (snd k) (nth j cols "")) (groupby_keys m)) /\
    (0 < c)%nat /\
    p = pct c (List.length
          (filter (fun k => String.eqb (fst k)
                              (nth r (sorted_labels (map fst (groupby_keys m))) "") &&
                            existsb (String.eqb (snd k)) cols) (groupby_keys m))).
Proof.
  intros Hn. rewrite bar_labels_cells, crosstab_length.
  split; intros [r [j (Hr & Hj & Hi & Hc & Hc0 & Hp)]]; exists r, j;
    rewrite crosstab_nth in * by assumption;
    rewrite nth_map_cols in * by assumption;
    rewrite count_cols_sum_pair in * by exact Hn;
    repeat split; assumption.
Qed.

Lemma generate_plots_some m P :
  generate_plots (Some m) = Some P ->
  P = mkPlots (plot1_labels m) (plot2_labels m)
              (bar_labels (crosstab EVAC_ORDER m) (List.length EVAC_ORDER)).
Proof. destruct m; [discriminate|]. now intros [= <-]. Qed.

Lemma first_generate_plots_some m P :
  first_generate_plots (Some m) = Some P ->
  P = mkPlots (plot1_labels m) (first_plot2_labels m)
              (bar_labels (crosstab (sorted_labels (map snd (groupby_keys m))) m)
                          (List.length (sorted_labels (map snd (groupby_keys m))))).
Proof. destruct m; [discriminate|]. now intros [= <-]. Qed.

Lemma EVAC_ORDER_nodup : NoDup EVAC_ORDER.
Proof.
  constructor; [|constructor; [simpl; tauto | constructor]].
  simpl. intros [E|[]]. discriminate.
Qed.

Lemma sum_vals_map (f : string -> nat) cols :
  sum_vals (map (fun c => (c, f c)) cols) = fold_right Nat.add 0%nat (map f cols).
Proof. induction cols as [|c t IH]; simpl; [reflexivity|]. now rewrite IH. Qed.

(** [ev_counts] counts choice [c] for the merged rows whose (non-NaN)
    [evacuate_choice] is [c]. *)
Definition is_choice (x : Merged) (c : string) : bool :=
  match evacuate_choice x with Some e => String.eqb e c | None => false end.

Lemma ev_counts_total df :
  sum_vals (ev_counts df) =
  List.length (filter (fun x => existsb (is_choice x) EVAC_ORDER) df).
Proof.
  unfold ev_counts. rewrite sum_vals_map.
  apply (count_cols_sum is_choice df EVAC_ORDER EVAC_ORDER_nodup).
  intros x c c'. unfold is_choice. destruct (evacuate_choice x); [|discriminate].
  intros E1 E2. apply String.eqb_eq in E1, E2. congruence.
Qed.



Lemma latest_response_nil sort_dated (sort_ok : is_sort_by_created_at sort_dated) grp df :
  (forall r, In r df -> in_group grp r = false) -> latest_response sort_dated grp df = [].
Proof.
  intros H. unfold latest_response. rewrite filter_none_true by exact H.
  destruct (sort_ok []) as [Hp _].
  apply Permutation_nil in Hp. unfold sort_values. simpl. now rewrite Hp.
Qed.

Lemma merge_inner_nil_r L : merge_inner L [] = [].
Proof. induction L as [|l L IH]; simpl; [reflexivity|]. exact IH. Qed.

Lemma no_evacuate_rows_merge_empty sort_dated (sort_ok : is_sort_by_created_at sort_dated) df :
  (forall r, In r df -> step_name r <> Some "evacuate_select") ->
  extract_and_merge sort_dated df = [].
Proof.
  intros H. unfold extract_and_merge, evac_choices.
  rewrite (latest_response_nil sort_dated sort_ok); [apply merge_inner_nil_r|].
  intros r Hr. unfold standardize_player_types in Hr.
  apply in_map_iff in Hr as [r0 [<- Hr0]]. unfold in_group. simpl.
  destruct (step_name r0) as [s|] eqn:E; [|reflexivity].
  rewrite orb_false_r. apply String.eqb_neq. intros ->. exact (H r0 Hr0 E).
Qed.

(** processEvacuate.process_data, firstworkingprocessEvacuate.process_data:
    the merged frame either script returns has at most one row per
    [user_id], whatever the sort's tie order, because both sides of the
    merge come from [drop_duplicates('user_id', keep='last')]. *)
Theorem merged_one_row_per_user sort_dated :
  (forall parser input only_today today start_time end_time m,
     process_data sort_dated parser input only_today today start_time end_time = Returned m ->
     NoDup (map m_user_id m)) /\
  (forall to_dt input only_today today today_text m,
     first_process_data sort_dated to_dt input only_today today today_text = Returned m ->
     NoDup (map m_user_id m)).
Proof.
  split.
  - intros parser input only_today today start_time end_time m H.
    apply process_data_returned in H as [df ->]. apply extract_and_merge_nodup.
  - intros to_dt input only_today today today_text m H.
    apply first_process_data_returned in H as [df ->]. apply extract_and_merge_nodup.
Qed.

(** processEvacuate.extract_and_merge: every merged row [x] carries, for its
    user, the normalised answer ('Petowner' read as 'Pet Owner') of a
    player_select/playerselect row that is last in the order of
    [sort_values('created_at')] among that user's such rows: its
    [created_at] is the latest of their timestamps, and it is NaT when one of
    them is NaT (NaT sorts last).  Likewise the answer of a last
    evacuate_select row. *)
Theorem merged_rows_are_latest_answers sort_dated :
  is_sort_by_created_at sort_dated ->
  forall df x, In x (extract_and_merge sort_dated df) ->
  (exists r, In r df /\ in_group ["player_select"; "playerselect"] r = true /\
     user_id r = m_user_id x /\ player_type x = option_map replace_petowner (answer r) /\
     forall r', In r' df -> in_group ["player_select"; "playerselect"] r' = true ->
       user_id r' = m_user_id x ->
       (forall c' c, created_at r' = Some c' -> created_at r = Some c -> c' <= c) /\
       (created_at r' = None -> created_at r = None)) /\
  (exists r, In r df /\ in_group ["evacuate_select"] r = true /\
     user_id r = m_user_id x /\ evacuate_choice x = option_map replace_petowner (answer r) /\
     forall r', In r' df -> in_group ["evacuate_select"] r' = true ->
       user_id r' = m_user_id x ->
       (forall c' c, created_at r' = Some c' -> created_at r = Some c -> c' <= c) /\
       (created_at r' = None -> created_at r = None)).
Proof.
  intros sort_ok df x Hx. unfold extract_and_merge in Hx.
  apply merge_inner_values in Hx as [Hp He]. split.
  - apply (latest_of_standardized sort_dated sort_ok) in Hp
      as [r (H1 & H2 & H3 & H4 & H5)].
    exists r. split; [exact H1|]. split; [exact H2|]. split; [exact H3|].
    split; [exact H4|]. intros r' Hr' Hg Hu. apply time_le_cases. now apply H5.
  - apply (latest_of_standardized sort_dated sort_ok) in He
      as [r (H1 & H2 & H3 & H4 & H5)].
    exists r. split; [exact H1|]. split; [exact H2|]. split; [exact H3|].
    split; [exact H4|]. intros r' Hr' Hg Hu. apply time_le_cases. now apply H5.
Qed.

(** processEvacuate.process_data: once the [created_at] column has parsed, a
    window whose end lies before its start selects no row, so the script
    prints the timeframe warning and exits 0.  An unparsable [created_at]
    column, or an unparsable bound, makes [pd.to_datetime] raise: exit 1. *)
Theorem reversed_window_warns :
  (forall sort_dated parser t only_today today s e ts st et,
     has_col t "created_at" = true ->
     parse_column parser (map csv_created_at (rows t)) = Some ts ->
     s <> "" -> e <> "" ->
     parse_scalar parser s = Some st -> parse_scalar parser e = Some et -> et < st ->
     process_data sort_dated parser (Some t) only_today today (Some s) (Some e) =
       Returned_none "Warning: No data found for the specified timeframe." /\
     main sort_dated parser (Some t) only_today today (Some s) (Some e) =
       mkScriptRun ["Warning: No data found for the specified timeframe."] [] 0) /\
  (forall sort_dated parser t only_today today start_time end_time,
     has_col t "created_at" = true ->
     parse_column parser (map csv_created_at (rows t)) = None ->
     main sort_dated parser (Some t) only_today today start_time end_time =
       mkScriptRun [] [to_datetime_error "created_at"] 1) /\
  (forall sort_dated parser t only_today today s end_time ts,
     has_col t "created_at" = true ->
     parse_column parser (map csv_created_at (rows t)) = Some ts ->
     s <> "" -> parse_scalar parser s = None ->
     main sort_dated parser (Some t) only_today today (Some s) end_time =
       mkScriptRun [] [to_datetime_error "start_time"] 1).
Proof.
  split; [|split].
  - intros sort_dated parser t only_today today s e ts st et Hc Hp Hs He Hst Het Hlt.
    assert (H : process_data sort_dated parser (Some t) only_today today (Some s) (Some e) =
                Returned_none "Warning: No data found for the specified timeframe.").
    { rewrite (Scripts.process_data_parsed _ _ _ _ _ _ _ _ _ _ Hc Hp
                 (parse_bound_some _ _ _ Hs Hst) (parse_bound_some _ _ _ He Het)).
      rewrite time_filter_reversed by exact Hlt. reflexivity. }
    split; [exact H|]. unfold main. now rewrite H.
  - intros sort_dated parser t only_today today start_time end_time Hc Hp.
    unfold main, process_data. rewrite Hc, Hp. reflexivity.
  - intros sort_dated parser t only_today today s end_time ts Hc Hp Hs Hst.
    unfold main, process_data. rewrite Hc, Hp. unfold parse_bound.
    apply String.eqb_neq in Hs. rewrite Hs, Hst. reflexivity.
Qed.

(** processEvacuate.process_data ([--today]): [.dt.date == today] keeps
    exactly the rows with [created_at] in the UTC day, the nanoseconds from
    its midnight to the last nanosecond before the next one (NaT is on no
    day); the start and end bounds then apply to those rows.  A row at
    23:59:59.5 is on the day. *)
Theorem today_filter_is_utc_day :
  (forall y mo d start_ts end_ts df,
     time_filter true (days_from_civil y mo d) start_ts end_ts df =
     time_filter false (days_from_civil y mo d) start_ts end_ts
       (filter (fun r => match created_at r with
                         | Some c => in_window (Some (utc_timestamp y mo d 0 0 0))
                                       (Some (utc_timestamp y mo d 0 0 0 + ns_per_day - 1)) c
                         | None => false
                         end) df)) /\
  on_day (days_from_civil 2026 1 1)
    (mkRow None None None (Some (utc_timestamp 2026 1 1 23 59 59 + 500000000))) = true.
Proof.
  split; [|vm_compute; reflexivity].
  intros y mo d start_ts end_ts df. unfold time_filter.
  rewrite (filter_ext (on_day (days_from_civil y mo d))
             (fun r => match created_at r with
                       | Some c => in_window (Some (utc_timestamp y mo d 0 0 0))
                                     (Some (utc_timestamp y mo d 0 0 0 + ns_per_day - 1)) c
                       | None => false
                       end)); [reflexivity|].
  intros r. unfold on_day. destruct (created_at r) as [c|]; [|reflexivity].
  unfold in_window. set (D := days_from_civil y mo d).
  assert (E : utc_timestamp y mo d 0 0 0 = D * ns_per_day)
    by (unfold utc_timestamp, ns_per_day; fold D; lia).
  rewrite E.
  destruct (Z.eqb_spec (date_of c) D) as [H|H]; rewrite date_of_iff in H;
    destruct (Z.leb_spec (D * ns_per_day) c);
    destruct (Z.leb_spec c (D * ns_per_day + ns_per_day - 1));
    simpl; try reflexivity; lia.
Qed.

(** processEvacuate.generate_plots and firstworkingprocessEvacuate.generate_plots,
    plot 3: the labelled bars are exactly the positive cells of [grouped],
    built from the [(player_type, evacuate_choice)] keys of the merged rows
    where both are non-NaN ([groupby] drops the others).  Bar
    [i = j * n_groups + r] is labelled with the number of such keys of the
    [r]-th player type (in sorted order) whose choice is the [j]-th column,
    and with that count's share of the row total.  In processEvacuate the
    columns are [EVAC_ORDER] and the row total counts only the keys whose
    choice is in [EVAC_ORDER]; in firstworkingprocessEvacuate the columns are
    the sorted choices of the keys and the total is every key of that
    type. *)
Theorem plot3_labels_count_cells :
  (forall m P, generate_plots (Some m) = Some P ->
   forall i c p, In (i, c, p) (plot3 P) <->
   exists r j, (r < List.length (sorted_labels (map fst (groupby_keys m))))%nat /\ (j < 2)%nat /\
     i = (j * List.length (sorted_labels (map fst (groupby_keys m))) + r)%nat /\
     c = List.length
           (filter (fun k => String.eqb (fst k)
                               (nth r (sorted_labels (map fst (groupby_keys m))) "") &&
                             String.eqb (snd k) (nth j EVAC_ORDER "")) (groupby_keys m)) /\
     (0 < c)%nat /\
     p = pct c (List.length
           (filter (fun k => String.eqb (fst k)
                               (nth r (sorted_labels (map fst (groupby_keys m))) "") &&
                             existsb (String.eqb (snd k)) EVAC_ORDER) (groupby_keys m)))) /\
  (forall m P, first_generate_plots (Some m) = Some P ->
   forall i c p, In (i, c, p) (plot3 P) <->
   exists r j, (r < List.length (sorted_labels (map fst (groupby_keys m))))%nat /\
     (j < List.length (sorted_labels (map snd (groupby_keys m))))%nat /\
     i = (j * List.length (sorted_labels (map fst (groupby_keys m))) + r)%nat /\
     c = List.length
           (filter (fun k => String.eqb (fst k)
                               (nth r (sorted_labels (map fst (groupby_keys m))) "") &&
                             String.eqb (snd k)
                               (nth j (sorted_labels (map snd (groupby_keys m))) ""))
                   (groupby_keys m)) /\
     (0 < c)%nat /\
     p = pct c (List.length
           (filter (fun k => String.eqb (fst k)
                               (nth r (sorted_labels (map fst (groupby_keys m))) ""))
                   (groupby_keys m)))).
Proof.
  split.
  - intros m P H i c p. rewrite (generate_plots_some m P H). cbn [plot3].
    exact (crosstab_labels EVAC_ORDER m i c p EVAC_ORDER_nodup).
  - intros m P H i c p. rewrite (first_generate_plots_some m P H). cbn [plot3].
    rewrite crosstab_labels by apply sorted_labels_nodup.
    assert (Ef : forall pt,
      filter (fun k => String.eqb (fst k) pt &&
                       existsb (String.eqb (snd k))
                               (sorted_labels (map snd (groupby_keys m)))) (groupby_keys m) =
      filter (fun k => String.eqb (fst k) pt) (groupby_keys m)).
    { intros pt. apply filter_ext_in. intros k Hk.
      rewrite (proj2 (existsb_eqb_In _ _)); [apply andb_true_r|].
      apply sorted_labels_In, in_map, Hk. }
    setoid_rewrite Ef. reflexivity.
Qed.

(** processEvacuate.generate_plots, plot 2: the bars are [EVAC_ORDER] in that
    order.  If some merged row has one of those two choices, every bar has a
    percentage and they add up to 100; if none has (NaN choices included),
    [ev_counts.sum()] is 0 and every percentage is NaN. *)
Theorem plot2_percentages_sum_or_nan df :
  map (fun l => fst (fst l)) (plot2_labels df) = EVAC_ORDER /\
  ((exists x e, In x df /\ evacuate_choice x = Some e /\ In e EVAC_ORDER) ->
     (forall l, In l (plot2_labels df) -> snd l <> None) /\
     sumQ (map (fun l => match snd l with Some q => q | None => 0%Q end)
               (plot2_labels df)) == 100) /\
  ((forall x e, In x df -> evacuate_choice x = Some e -> ~ In e EVAC_ORDER) ->
     forall l, In l (plot2_labels df) -> snd l = None).
Proof.
  split; [|split].
  - unfold plot2_labels, ev_counts. rewrite !map_map. apply map_id.
  - intros [x [e [Hx [He Hc]]]].
    assert (ET : Nat.eqb (sum_vals (ev_counts df)) 0 = false).
    { apply Nat.eqb_neq. rewrite ev_counts_total.
      assert (Hpos : (0 < List.length (filter (fun x => existsb (is_choice x) EVAC_ORDER) df))%nat).
      { apply (length_pos_of_In x), filter_In. split; [assumption|].
        apply existsb_exists. exists e. split; [assumption|].
        unfold is_choice. rewrite He. apply String.eqb_refl. }
      lia. }
    unfold plot2_labels. cbv zeta. rewrite ET. split.
    + intros l Hl. apply in_map_iff in Hl as [kc [<- _]]. discriminate.
    + rewrite map_map. cbn [snd].
      rewrite (sumQ_pct (ev_counts df) (sum_vals (ev_counts df))).
      apply pct_self. now apply Nat.eqb_neq.
  - intros Hno.
    assert (ET : Nat.eqb (sum_vals (ev_counts df)) 0 = true).
    { apply Nat.eqb_eq. rewrite ev_counts_total, filter_none_true; [reflexivity|].
      intros x Hx. apply not_true_iff_false. intros H.
      apply existsb_exists in H as [c [Hc Ec]]. unfold is_choice in Ec.
      destruct (evacuate_choice x) as [e|] eqn:E; [|discriminate].
      apply String.eqb_eq in Ec. subst c. exact (Hno x e Hx E Hc). }
    unfold plot2_labels. cbv zeta. rewrite ET.
    intros l Hl. apply in_map_iff in Hl as [kc [<- _]]. reflexivity.
Qed.


(** processEvacuate main: when the timeframe keeps rows but none of them is an
    evacuate_select row, [process_data] returns an empty merged frame, so
    [generate_plots] draws nothing and the script still prints its SUCCESS
    banner.  firstworkingprocessEvacuate likewise prints its success line for a
    header-only file read without [--today]. *)
Theorem success_printed_without_plots sort_dated :
  is_sort_by_created_at sort_dated ->
  (forall parser t only_today today start_time end_time ts st et,
     (forall c, In c evacuate_required_cols -> In c (columns t)) ->
     parse_column parser (map csv_created_at (rows t)) = Some ts ->
     parse_bound parser start_time = Some st ->
     parse_bound parser end_time = Some et ->
     time_filter only_today today st et (assign_created_at (rows t) ts) <> [] ->
     (forall r, In r (time_filter only_today today st et (assign_created_at (rows t) ts)) ->
                step_name r <> Some "evacuate_select") ->
     process_data sort_dated parser (Some t) only_today today start_time end_time = Returned [] /\
     generate_plots (Some []) = None /\
     main sort_dated parser (Some t) only_today today start_time end_time =
       mkScriptRun ["SUCCESS: Analysis Complete"] [] 0) /\
  (forall to_dt t today today_text,
     (forall c, In c evacuate_required_cols -> In c (columns t)) ->
     rows t = [] -> to_dt [] = Some [] ->
     first_process_data sort_dated to_dt (Some t) false today today_text = Returned [] /\
     first_generate_plots (Some []) = None /\
     first_main sort_dated to_dt (Some t) false today today_text =
       mkScriptRun ["Success! Created: player_breakdown.png, evacuation_overall.png, evacuation_by_type.png, and plots_summary.html"] [] 0).
Proof.
  intros sort_ok. split.
  - intros parser t only_today today start_time end_time ts st et Hc Hp Hs He Hne Hno.
    assert (Hcol : has_col t "created_at" = true)
      by (apply Scripts.has_col_true, Hc; simpl; tauto).
    assert (H : process_data sort_dated parser (Some t) only_today today start_time end_time =
                Returned []).
    { rewrite (Scripts.process_data_parsed _ _ _ _ _ _ _ _ _ _ Hcol Hp Hs He).
      destruct (time_filter only_today today st et (assign_created_at (rows t) ts))
        as [|r l] eqn:E; [contradiction|].
      rewrite Scripts.access_columns_present by exact Hc.
      rewrite (no_evacuate_rows_merge_empty sort_dated sort_ok); [reflexivity|].
      exact Hno. }
    split; [exact H|]. split; [reflexivity|]. unfold main. now rewrite H.
  - intros to_dt t today today_text Hc Hr Ht.
    assert (Hcol : has_col t "created_at" = true)
      by (apply Scripts.has_col_true, Hc; simpl; tauto).
    assert (H2 : to_dt (map csv_created_at (rows t)) = Some []) by now rewrite Hr.
    assert (H : first_process_data sort_dated to_dt (Some t) false today today_text =
                Returned []).
    { rewrite (Scripts.first_process_data_parsed _ _ _ _ _ _ _ Hcol H2).
      rewrite Scripts.access_columns_present by exact Hc. rewrite Hr. cbn [assign_created_at].
      rewrite (no_evacuate_rows_merge_empty sort_dated sort_ok); [reflexivity|].
      intros r []. }
    split; [exact H|]. split; [reflexivity|]. unfold first_main. now rewrite H.
Qed.

(** Witnesses. *)

Lemma merged_one_row_per_user_witness :
  process_data stable_sort decimal_parser (Some sample_table) false 0 None None =
    Returned [mkMerged (Some "u1") (Some "Pet Owner") (Some "Yep, evacuate!")] /\
  NoDup (map m_user_id [mkMerged (Some "u1") (Some "Pet Owner") (Some "Yep, evacuate!")]).
Proof.
  split; [vm_compute; reflexivity|].
  apply (proj1 (merged_one_row_per_user stable_sort) decimal_parser (Some sample_table)
           false 0 None None).
  vm_compute. reflexivity.
Defined.

Lemma merged_rows_are_latest_answers_witness :
  In (mkMerged (Some "u1") (Some "Pet Owner") (Some "Yep, evacuate!"))
     (extract_and_merge stable_sort sample_rows) /\
  exists r, In r sample_rows /\ in_group ["evacuate_select"] r = true /\
     user_id r = Some "u1" /\ Some "Yep, evacuate!" = option_map replace_petowner (answer r) /\
     forall r', In r' sample_rows -> in_group ["evacuate_select"] r' = true ->
       user_id r' = Some "u1" ->
       (forall c' c, created_at r' = Some c' -> created_at r = Some c -> c' <= c) /\
       (created_at r' = None -> created_at r = None).
Proof.
  split; [vm_compute; left; reflexivity|].
  apply (merged_rows_are_latest_answers stable_sort stable_sort_ok sample_rows
           (mkMerged (Some "u1") (Some "Pet Owner") (Some "Yep, evacuate!"))).
  vm_compute. left. reflexivity.
Defined.

Lemma reversed_window_warns_witness :
  main stable_sort decimal_parser (Some sample_table) false 0 (Some "9") (Some "5") =
    mkScriptRun ["Warning: No data found for the specified timeframe."] [] 0 /\
  main stable_sort decimal_parser
    (Some (mkTable evacuate_required_cols [csv_row "u1" "player_select" "Farmer" "noon"]))
    false 0 None None =
    mkScriptRun [] [to_datetime_error "created_at"] 1 /\
  main stable_sort decimal_parser (Some sample_table) false 0 (Some "noon") None =
    mkScriptRun [] [to_datetime_error "start_time"] 1.
Proof.
  destruct reversed_window_warns as [H1 [H2 H3]]. split; [|split].
  - apply (H1 stable_sort decimal_parser sample_table false 0 "9" "5"
             [Some 5; Some 6; Some 9; Some 7] 9 5); try reflexivity; discriminate.
  - apply H2; reflexivity.
  - apply (H3 stable_sort decimal_parser sample_table false 0 "noon" None
             [Some 5; Some 6; Some 9; Some 7]); try reflexivity. discriminate.
Defined.

Lemma plot3_labels_count_cells_witness :
  generate_plots (Some sample_merged) =
    Some (match generate_plots (Some sample_merged) with
          | Some P => P | None => mkPlots [] [] [] end) /\
  exists r j, (r < 2)%nat /\ (j < 2)%nat /\ (2 = j * 2 + r)%nat /\
    nth r (sorted_labels (map fst (groupby_keys sample_merged))) "" = "Farmer".
Proof.
  assert (H : generate_plots (Some sample_merged) =
                Some (match generate_plots (Some sample_merged) with
                      | Some P => P | None => mkPlots [] [] [] end))
    by (vm_compute; reflexivity).
  split; [exact H|].
  destruct (proj1 (proj1 plot3_labels_count_cells sample_merged _ H 2%nat 1%nat (pct 1 2)))
    as [r [j (Hr & Hj & Hi & Hc & Hc0 & Hp)]].
  { vm_compute. right. right. left. reflexivity. }
  change (List.length (sorted_labels (map fst (groupby_keys sample_merged)))) with 2%nat in *.
  exists r, j. split; [exact Hr|]. split; [exact Hj|]. split; [exact Hi|].
  destruct r as [|[|r]]; [reflexivity | |lia].
  destruct j as [|[|j]]; [discriminate | discriminate | lia].
Defined.

Lemma plot2_percentages_sum_or_nan_witness :
  sumQ (map (fun l => match snd l with Some q => q | None => 0%Q end)
            (plot2_labels sample_merged)) == 100.
Proof.
  refine (proj2 (proj1 (proj2 (plot2_percentages_sum_or_nan sample_merged)) _)).
  exists (mkMerged (Some "u1") (Some "Pet Owner") (Some "Yep, evacuate!")), "Yep, evacuate!".
  split; [now left|]. split; [reflexivity | now left].
Defined.


Lemma success_printed_without_plots_witness :
  main stable_sort decimal_parser
       (Some (mkTable evacuate_required_cols [csv_row "u1" "player_select" "Farmer" "5"]))
       false 0 None None =
    mkScriptRun ["SUCCESS: Analysis Complete"] [] 0 /\
  first_main stable_sort (parse_column decimal_parser)
       (Some (mkTable evacuate_required_cols [])) false 0 "2026-01-09" =
    mkScriptRun ["Success! Created: player_breakdown.png, evacuation_overall.png, evacuation_by_type.png, and plots_summary.html"] [] 0.
Proof.
  split.
  - apply (proj1 (success_printed_without_plots stable_sort stable_sort_ok)
             decimal_parser
             (mkTable evacuate_required_cols [csv_row "u1" "player_select" "Farmer" "5"])
             false 0 None None [Some 5] None None); try reflexivity.
    + intros c Hc. exact Hc.
    + discriminate.
    + intros r [<- | []]. simpl. discriminate.
  - apply (proj2 (success_printed_without_plots stable_sort stable_sort_ok)
             (parse_column decimal_parser) (mkTable evacuate_required_cols [])
             0 "2026-01-09"); try reflexivity.
    intros c Hc. exact Hc.
Defined.
End EvacuateExtra.
